(** * socketserver/server/backend.go: the RPC client of the socket server

    A shallow embedding of the backend client ([backendInfo] and its
    methods) together with the library calls it relies on, followed by the
    properties of the remote-command, aggregated-data and topic-notice
    operations.

    Conventions.
    - Go [string] and [[]byte] are byte sequences: Rocq [string].
    - Go [int], [int64] and [time.Duration] are [Z]; where the program
      computes in 64 bits the wrap-around is written with [wrap64].
    - [time.Time] is the instant in nanoseconds since the Unix epoch
      ([UnixNano]); [UTC()] does not change the instant.
    - Go [map[string]T] is [gmap string T].
    - A Go result [(v, err)] is a pair whose second component is
      [option error]; [None] is [nil].
    - Locks ([lastSuccessLock], the cache's own mutex) protect single
      map operations; the model is sequential, each operation is atomic. *)

From Stdlib Require Import ZArith String Ascii List Lia Bool DecimalString.
From Stdlib Require Import Floats.PrimFloat.
From stdpp Require Import base option strings gmap.

Local Open Scope string_scope.
Local Open Scope list_scope.
Local Open Scope Z_scope.

(** ** Machine integers *)

Definition MaxInt64 : Z := 9223372036854775807.
Definition MinInt64 : Z := -9223372036854775808.
Definition MaxUint64 : Z := 18446744073709551615.

(** Two's complement reduction to the [int64] range. *)
Definition wrap64 (z : Z) : Z := (z + 2 ^ 63) mod 2 ^ 64 - 2 ^ 63.

(** ** Byte strings *)

Definition byte_of (c : ascii) : Z := Z.of_N (N_of_ascii c).

Definition bytes (s : string) : list Z := map byte_of (list_ascii_of_string s).

Definition string_of_bytes (l : list Z) : string :=
  string_of_list_ascii (map (fun b => ascii_of_N (Z.to_N b)) l).

(** [fmt.Sprintf] with verbs [%s] only is concatenation. *)
Definition Sprintf_s_slash_s (a b : string) : string := a +:+ "/" +:+ b.

(** [strings.Join]. *)
Fixpoint strings_Join (elems : list string) (sep : string) : string :=
  match elems with
  | [] => ""
  | [e] => e
  | e :: rest => e +:+ sep +:+ strings_Join rest sep
  end.

(** [strings.IndexRune] for a rune below [utf8.RuneSelf]: the index of the
    first byte equal to [c], or [-1]. *)
Fixpoint strings_IndexRune (s : string) (c : ascii) : Z :=
  match s with
  | EmptyString => -1
  | String a rest =>
      if Ascii.eqb a c then 0
      else let i := strings_IndexRune rest c in
           if i =? -1 then -1 else i + 1
  end.

(** The slice expression [s[0:hi]]. *)
Definition slice_to (s : string) (hi : Z) : string :=
  String.substring 0 (Z.to_nat hi) s.

(** *** [strings.TrimSpace]

    White space is decided by [unicode.IsSpace] on the decoded runes.  The
    code points with that property are U+0009..U+000D, U+0020, U+0085,
    U+00A0, U+1680, U+2000..U+200A, U+2028, U+2029, U+202F, U+205F and
    U+3000; the predicates below recognise their UTF-8 encodings. *)

Definition isSpace1 (c : Z) : bool :=
  ((9 <=? c) && (c <=? 13)) || (c =? 32).

Definition isSpace2 (c1 c2 : Z) : bool :=
  (c1 =? 194) && ((c2 =? 133) || (c2 =? 160)).

Definition isSpace3 (c1 c2 c3 : Z) : bool :=
  ((c1 =? 225) && (c2 =? 154) && (c3 =? 128))
  || ((c1 =? 226) && (c2 =? 128)
      && (((128 <=? c3) && (c3 <=? 138)) || (c3 =? 168) || (c3 =? 169) || (c3 =? 175)))
  || ((c1 =? 226) && (c2 =? 129) && (c3 =? 159))
  || ((c1 =? 227) && (c2 =? 128) && (c3 =? 128)).

(** Drop the white space runes at the front of a byte sequence. *)
Fixpoint trimLeftSpace (l : list Z) : list Z :=
  match l with
  | [] => []
  | c1 :: t1 =>
      if isSpace1 c1 then trimLeftSpace t1
      else match t1 with
           | [] => l
           | c2 :: t2 =>
               if isSpace2 c1 c2 then trimLeftSpace t2
               else match t2 with
                    | [] => l
                    | c3 :: t3 =>
                        if isSpace3 c1 c2 c3 then trimLeftSpace t3 else l
                    end
           end
  end.

(** Drop the white space runes at the back; the argument is the byte
    sequence reversed, so an encoding is met last byte first. *)
Fixpoint trimRightSpace_rev (l : list Z) : list Z :=
  match l with
  | [] => []
  | c1 :: t1 =>
      if isSpace1 c1 then trimRightSpace_rev t1
      else match t1 with
           | [] => l
           | c2 :: t2 =>
               if isSpace2 c2 c1 then trimRightSpace_rev t2
               else match t2 with
                    | [] => l
                    | c3 :: t3 =>
                        if isSpace3 c3 c2 c1 then trimRightSpace_rev t3 else l
                    end
           end
  end.

Definition strings_TrimSpace (s : string) : string :=
  string_of_bytes (rev (trimRightSpace_rev (rev (trimLeftSpace (bytes s))))).

(** ** Errors

    Go [error] values.  [errorString] is what [errors.New] allocates (a
    package-level sentinel is identified by its text, every sentinel of
    the program and of [strconv] having a text of its own); [Errorf]
    keeps the format and the operands of a [fmt.Errorf] call;
    [foreignError] injects an error value made by a collaborator
    ([naclform], [net/http], [io], [encoding/json]), which is never one
    of the program's own values. *)

(** An error value of a collaborator, known by the text its [Error()]
    method returns. *)
Record libError := {
  lib_Error : string
}.

(** The dynamic value [json.Unmarshal] stores into an [interface{}]:
    [nil], [bool], [float64], [string], [[]interface{}] or
    [map[string]interface{}]. *)
#[local] Set Warnings "-register-all".
Inductive JSONValue :=
| JNull
| JBool (b : bool)
| JNumber (f : float)
| JString (s : string)
| JArray (elems : list JSONValue)
| JObject (fields : gmap string JSONValue).

Inductive fmt_arg (E : Type) :=
| ArgError (e : E)
| ArgString (s : string)
| ArgInt (z : Z).
Arguments ArgError {E} e.
Arguments ArgString {E} s.
Arguments ArgInt {E} z.

Inductive error :=
| errorString (text : string)
| Errorf (format : string) (args : list (fmt_arg error))
| NumError (Func Num : string) (Err : error)
| ErrForwardedFromBackend (JSONError : JSONValue)
| ErrBackendNotOK (Response : string) (Code : Z)
| foreignError (e : libError).
#[local] Set Warnings "register-all".

(** ** [strconv.ParseInt(s, 10, 64)] *)

Definition ErrRange : error := errorString "value out of range".
Definition ErrSyntax : error := errorString "invalid syntax".

Definition syntaxError (fn str : string) : error := NumError fn str ErrSyntax.
Definition rangeError (fn str : string) : error := NumError fn str ErrRange.

Definition isDigit (c : Z) : bool := (48 <=? c) && (c <=? 57).

(** The digit loop of [ParseUint] in base 10 with [bitSize] 64: [inl true]
    is a range error, [inl false] a syntax error. *)
Fixpoint parseUint_digits (l : list Z) (n : Z) : bool + Z :=
  match l with
  | [] => inr n
  | c :: rest =>
      if negb (isDigit c) then inl false
      else if MaxUint64 / 10 + 1 <=? n then inl true
      else let n10 := n * 10 in
           let n1 := (n10 + (c - 48)) mod 2 ^ 64 in
           if (n1 <? n10) || (MaxUint64 <? n1) then inl true
           else parseUint_digits rest n1
  end.

Definition ParseUint (l : list Z) : bool + Z :=
  match l with
  | [] => inl false
  | _ => parseUint_digits l 0
  end.

Definition ParseInt (s : string) : error + Z :=
  let fnParseInt := "ParseInt" in
  match bytes s with
  | [] => inl (syntaxError fnParseInt s)
  | c :: rest =>
      let neg := c =? 45 in
      let digits := if (c =? 43) || (c =? 45) then rest else c :: rest in
      match ParseUint digits with
      | inl false => inl (syntaxError fnParseInt s)
      | r =>
          let un := match r with inr u => u | inl _ => MaxUint64 end in
          let cutoff := 2 ^ 63 in
          if negb neg && (cutoff <=? un) then inl (rangeError fnParseInt s)
          else if neg && (cutoff <? un) then inl (rangeError fnParseInt s)
          else inr (if neg then wrap64 (- wrap64 un) else wrap64 un)
      end
  end.

(** [%d] of an [int]. *)
Definition Sprintf_d (z : Z) : string := NilZero.string_of_int (Z.to_int z).

(** ** [time] *)

Definition Time := Z.
Definition Second : Z := 1000000000.
Definition Minute : Z := 60 * Second.

(** ** [net/http] and [net/url] *)

Abbreviation url_Values := (gmap string (list string)).
Abbreviation http_Header := (gmap string (list string)).

(** [url.Values.Set]: the key is bound to the single value. *)
Definition Values_Set (v : url_Values) (key value : string) : url_Values :=
  <[key := [value]]> v.

(** [textproto.CanonicalMIMEHeaderKey]: a key made of token bytes gets an
    upper case letter first and after each hyphen and lower case letters
    elsewhere; any other key is returned unchanged. *)
Definition isAlnum (c : Z) : bool :=
  isDigit c || ((65 <=? c) && (c <=? 90)) || ((97 <=? c) && (c <=? 122)).

Definition validHeaderFieldByte (c : Z) : bool :=
  isAlnum c
  || existsb (Z.eqb c) [33; 35; 36; 37; 38; 39; 42; 43; 45; 46; 94; 95; 96; 124; 126].

Fixpoint canonicalBytes (upper : bool) (l : list Z) : list Z :=
  match l with
  | [] => []
  | c :: rest =>
      let c' := if upper && (97 <=? c) && (c <=? 122) then c - 32
                else if negb upper && (65 <=? c) && (c <=? 90) then c + 32
                else c in
      c' :: canonicalBytes (c' =? 45) rest
  end.

Definition CanonicalMIMEHeaderKey (s : string) : string :=
  if forallb validHeaderFieldByte (bytes s)
  then string_of_bytes (canonicalBytes true (bytes s))
  else s.

(** [http.Header.Get]: the first value under the canonical key, [""] when
    there is none. *)
Definition Header_Get (h : http_Header) (key : string) : string :=
  match h !! CanonicalMIMEHeaderKey key with
  | Some (v :: _) => v
  | _ => ""
  end.

(** The response body as the client sees it: what [ioutil.ReadAll]
    yields and what [Close] returns. *)
Record ReadCloser := {
  body_ReadAll : libError + string;
  body_Close : option libError
}.

Record Response := {
  StatusCode : Z;
  Header : http_Header;
  Body : ReadCloser
}.

Definition ioutil_ReadAll (r : ReadCloser) : libError + string := body_ReadAll r.

(** ** [github.com/patrickmn/go-cache]

    An item keeps its value and its expiry as a [UnixNano] timestamp, [0]
    meaning that the item does not expire.  The janitor that deletes
    expired items in the background is not modelled: [Get] never returns
    an expired item, so the janitor is not observable through it. *)

Record Item := {
  Object : string;
  Expiration : Z
}.

Record Cache := {
  defaultExpiration : Z;
  items : gmap string Item
}.

Definition DefaultExpiration : Z := 0.

(** [cache.New(defaultExpiration, cleanupInterval)]. *)
Definition cache_New (de cleanupInterval : Z) : Cache :=
  {| defaultExpiration := if de =? 0 then -1 else de; items := ∅ |}.

(** ** [naclform] *)

(** Modelled from the spec: [naclform.ServerInfo], the server's numeric
    identifier and the precomputed shared key (its declaration is in the
    naclform package). *)
Record ServerInfo := {
  ServerID : Z;
  SharedKey : list Z
}.

(** Modelled from the spec: [AuthInfo], the value object
    [{twitchUsername: string, usernameValidated: bool}] passed per call
    (its declaration is in another file of the package). *)
Record AuthInfo := {
  TwitchUsername : string;
  UsernameValidated : bool
}.

(** Modelled from the spec: the fields of [ConfigFile] that
    [setupBackend] reads (its declaration is in another file of the
    package). *)
Record ConfigFile := {
  cfg_ServerID : Z;
  cfg_BackendURL : string;
  cfg_BackendPublicKey : list Z;
  cfg_OurPrivateKey : list Z
}.

(** ** The world outside the program

    Each interaction with the outside (sealing draws a random nonce, the
    HTTP client is asked to post a form, the clock is read) is an oracle
    indexed by the number of interactions made so far, so that two calls
    with the same arguments may have different outcomes.  The JSON codec
    and the key agreement are functions of their arguments alone.

    [w_PostForm] is one call of [http.Client.PostForm] and its result.
    The client of the program sets only a timeout, so inside one call the
    HTTP library may follow redirects and send further requests; those
    are part of the call and are not told apart here. *)

Record World := {
  w_Seal : nat -> ServerInfo -> url_Values -> libError + url_Values;
  w_PostForm : nat -> string -> url_Values -> libError + Response;
  w_Now : nat -> Time;
  w_json_Unmarshal : string -> libError + JSONValue;
  w_json_Marshal : JSONValue -> string * option libError;
  w_box_Precompute : list Z -> list Z -> list Z
}.

(** ** The client *)

Definition bPathAnnounceStartup : string := "/startup".
Definition bPathAddTopic : string := "/topics".
Definition bPathAggStats : string := "/stats".
Definition bPathOtherCommand : string := "/cmd/".

(** [HTTPClient] is represented by its timeout; [reloadGroup] and
    [lastSuccessLock] carry no data. *)
Record backendInfo := {
  HTTPClient_Timeout : Z;
  baseURL : string;
  responseCache : Cache;
  postStatisticsURL : string;
  addTopicURL : string;
  announceStartupURL : string;
  secureForm : ServerInfo;
  lastSuccess : gmap string Time
}.

(** The state a call runs in: the client, the number of interactions
    with the outside so far, the forms handed to [Seal] so far and the
    calls of [HTTPClient.PostForm] made so far, each with its URL and
    form (newest last). *)
Record State := {
  backend : backendInfo;
  tick : nat;
  seals : list url_Values;
  posts : list (string * url_Values)
}.

Definition M (A : Type) : Type := State -> A * State.

Definition ret {A} (a : A) : M A := fun s => (a, s).

Definition bind {A B} (m : M A) (k : A -> M B) : M B :=
  fun s => let (a, s') := m s in k a s'.

Notation "'let*' x ':=' m 'in' k" := (bind m (fun x => k))
  (at level 10, x name, m at level 100, k at level 200).
Notation "'let*' '_' ':=' m 'in' k" := (bind m (fun _ => k))
  (at level 10, m at level 100, k at level 200).

Definition getBackend : M backendInfo := fun s => (backend s, s).

Definition modifyBackend (f : backendInfo -> backendInfo) : M unit :=
  fun s => (tt, {| backend := f (backend s); tick := tick s;
                   seals := seals s; posts := posts s |}).

Definition next (s : State) : State :=
  {| backend := backend s; tick := S (tick s);
     seals := seals s; posts := posts s |}.

Section Operations.

Variable w : World.

(** [time.Now()]. *)
Definition time_Now : M Time := fun s => (w_Now w (tick s), next s).

(** [secureForm.Seal(form)]. *)
Definition Seal (info : ServerInfo) (form : url_Values) : M (libError + url_Values) :=
  fun s => (w_Seal w (tick s) info form,
            {| backend := backend s; tick := S (tick s);
               seals := seals s ++ [form]; posts := posts s |}).

(** [HTTPClient.PostForm(url, form)]: the call is logged; the requests
    the HTTP library sends while it serves the call are not. *)
Definition PostForm (url : string) (form : url_Values) : M (libError + Response) :=
  fun s => (w_PostForm w (tick s) url form,
            {| backend := backend s; tick := S (tick s);
               seals := seals s; posts := posts s ++ [(url, form)] |}).

Definition with_responseCache (c : Cache) (b : backendInfo) : backendInfo :=
  {| HTTPClient_Timeout := HTTPClient_Timeout b; baseURL := baseURL b;
     responseCache := c;
     postStatisticsURL := postStatisticsURL b; addTopicURL := addTopicURL b;
     announceStartupURL := announceStartupURL b; secureForm := secureForm b;
     lastSuccess := lastSuccess b |}.

Definition with_lastSuccess (m : gmap string Time) (b : backendInfo) : backendInfo :=
  {| HTTPClient_Timeout := HTTPClient_Timeout b; baseURL := baseURL b;
     responseCache := responseCache b;
     postStatisticsURL := postStatisticsURL b; addTopicURL := addTopicURL b;
     announceStartupURL := announceStartupURL b; secureForm := secureForm b;
     lastSuccess := m |}.

(** [backend.lastSuccess[bucket] = t]. *)
Definition setLastSuccess (bucket : string) (t : Time) : M unit :=
  modifyBackend (fun b => with_lastSuccess (<[bucket := t]> (lastSuccess b)) b).

(** [responseCache.Get(k)]: a missing item and an expired item are both
    absent; the clock is read only for an item that can expire. *)
Definition responseCache_Get (k : string) : M (option string) :=
  let* b := getBackend in
  match items (responseCache b) !! k with
  | None => ret None
  | Some item =>
      if 0 <? Expiration item then
        let* now := time_Now in
        if Expiration item <? now then ret None else ret (Some (Object item))
      else ret (Some (Object item))
  end.

(** [responseCache.Set(k, x, d)]: duration [0] ([DefaultExpiration])
    selects the default expiration of the cache; a positive duration
    gives the expiry [time.Now().Add(d).UnixNano()], an [int64] that
    wraps around when the sum leaves its range; any other duration gives
    no expiry. *)
Definition responseCache_Set (k x : string) (d : Z) : M unit :=
  let* b := getBackend in
  let c := responseCache b in
  let d := if d =? DefaultExpiration then defaultExpiration c else d in
  let* e := (if 0 <? d then let* now := time_Now in ret (wrap64 (now + d))
             else ret 0) in
  modifyBackend (fun b =>
    with_responseCache
      {| defaultExpiration := defaultExpiration (responseCache b);
         items := <[k := {| Object := x; Expiration := e |}]> (items (responseCache b)) |}
      b).

(** [copy(dst[:], src)] into a zeroed 32-byte array. *)
Definition copy32 (src : list Z) : list Z :=
  firstn 32 (src ++ repeat 0 32).

(** [setupBackend]: the client built from the configuration.  The
    assignment to the package variable [Backend] publishes the same
    client and is not modelled. *)
Definition setupBackend (config : ConfigFile) : backendInfo :=
  let epochTime : Time := 0 in
  {| HTTPClient_Timeout := 60 * Second;
     baseURL := cfg_BackendURL config;
     responseCache := cache_New (60 * Second) (10 * Minute);
     announceStartupURL := cfg_BackendURL config +:+ bPathAnnounceStartup;
     addTopicURL := cfg_BackendURL config +:+ bPathAddTopic;
     postStatisticsURL := cfg_BackendURL config +:+ bPathAggStats;
     lastSuccess :=
       {[ bPathAnnounceStartup := epochTime;
          bPathAddTopic := epochTime;
          bPathAggStats := epochTime;
          bPathOtherCommand := epochTime ]};
     secureForm :=
       {| ServerID := cfg_ServerID config;
          SharedKey := w_box_Precompute w (copy32 (cfg_BackendPublicKey config))
                                          (copy32 (cfg_OurPrivateKey config)) |} |}.

(** [getCacheKey]: the key of the response cache, [remoteCommand/data]. *)
Definition getCacheKey (remoteCommand data : string) : string :=
  Sprintf_s_slash_s remoteCommand data.

(** [ErrForwardedFromBackend.Error]: the marshalled value, the error
    of [json.Marshal] being dropped. *)
Definition ErrForwardedFromBackend_Error (JSONError : JSONValue) : string :=
  let (bytes, _) := w_json_Marshal w JSONError in bytes.

Definition ErrAuthorizationNeeded : error :=
  errorString "Must authenticate Twitch username to use this command".

(** [ErrBackendNotOK.Error]. *)
Definition ErrBackendNotOK_Error (Response : string) (Code : Z) : string :=
  "backend returned " +:+ Sprintf_d Code +:+ ": " +:+ Response.

Definition httpError (statusCode : Z) : error :=
  Errorf "backend http error: %d" [ArgInt statusCode].

End Operations.

Section Client.

Variable w : World.

(** [SendRemoteCommand]: the RPC call on the backend, a POST to
    [/cmd/$remoteCommand].  The deferred [resp.Body.Close()] discards its
    result and touches no state of the client. *)
Definition SendRemoteCommand (remoteCommand data : string) (auth : AuthInfo)
  : M (string * option error) :=
  let* b := getBackend in
  let destURL := baseURL b +:+ "/cmd/" +:+ remoteCommand in
  let healthBucket := "/cmd/" +:+ remoteCommand in
  let formData : url_Values :=
    {[ "clientData" := [data]; "username" := [TwitchUsername auth] ]} in
  let formData :=
    if UsernameValidated auth then Values_Set formData "authenticated" "1"
    else Values_Set formData "authenticated" "0" in
  let* sealed := Seal w (secureForm b) formData in
  match sealed with
  | inl err => ret ("", Some (foreignError err))
  | inr sealedForm =>
  let* posted := PostForm w destURL sealedForm in
  match posted with
  | inl err => ret ("", Some (foreignError err))
  | inr resp =>
  match ioutil_ReadAll (Body resp) with
  | inl err => ret ("", Some (foreignError err))
  | inr respBytes =>
  let responseStr := respBytes in
  if StatusCode resp =? 401 then
    ret ("", Some ErrAuthorizationNeeded)
  else if (StatusCode resp <? 200) || (299 <? StatusCode resp) then
    let typeStr := Header_Get (Header resp) "Content-Type" in
    let splitIdx := strings_IndexRune typeStr ";" in
    let typeStr :=
      if negb (splitIdx =? -1) then strings_TrimSpace (slice_to typeStr splitIdx)
      else typeStr in
    if String.eqb typeStr "application/json" then
      match w_json_Unmarshal w respBytes with
      | inl err =>
          ret ("", Some (Errorf "error decoding json error from backend: %v | %s"
                                [ArgError (foreignError err); ArgString responseStr]))
      | inr JSONError => ret ("", Some (ErrForwardedFromBackend JSONError))
      end
    else ret ("", Some (httpError (StatusCode resp)))
  else
    let* failed :=
      (if negb (String.eqb (Header_Get (Header resp) "FFZ-Cache") "") then
         match ParseInt (Header_Get (Header resp) "FFZ-Cache") with
         | inl err =>
             ret (Some (Errorf "The RPC server returned a non-integer cache duration: %v"
                               [ArgError err]))
         | inr durSecs =>
             let duration := wrap64 (durSecs * Second) in
             let* _ := responseCache_Set w (getCacheKey remoteCommand data)
                                         responseStr duration in
             ret None
         end
       else ret None) in
    match failed with
    | Some err => ret ("", Some err)
    | None =>
        let* now := time_Now w in
        let* _ := setLastSuccess bPathOtherCommand now in
        let* _ := setLastSuccess healthBucket now in
        ret (responseStr, None)
    end
  end end end.

(** [SendRemoteCommandCached]: the cached response when there is one,
    the RPC call otherwise. *)
Definition SendRemoteCommandCached (remoteCommand data : string) (auth : AuthInfo)
  : M (string * option error) :=
  let cacheKey := getCacheKey remoteCommand data in
  let* found := responseCache_Get w cacheKey in
  match found with
  | Some cached => ret (cached, None)
  | None => SendRemoteCommand remoteCommand data auth
  end.

(** [SendAggregatedData]: the aggregated usage data, POSTed to the
    statistics endpoint. *)
Definition SendAggregatedData (form : url_Values) : M (option error) :=
  let* b := getBackend in
  let* sealed := Seal w (secureForm b) form in
  match sealed with
  | inl err => ret (Some (foreignError err))
  | inr sealedForm =>
  let* posted := PostForm w (postStatisticsURL b) sealedForm in
  match posted with
  | inl err => ret (Some (foreignError err))
  | inr resp =>
  if (StatusCode resp <? 200) || (299 <? StatusCode resp) then
    let _closed := body_Close (Body resp) in
    ret (Some (httpError (StatusCode resp)))
  else
    let* now := time_Now w in
    let* _ := setLastSuccess bPathAggStats now in
    ret (foreignError <$> body_Close (Body resp))
  end end.

Definition sendTopicNotice (topic : string) (added : bool) : M (option error) :=
  let* b := getBackend in
  let formData : url_Values := ∅ in
  let formData := Values_Set formData "channels" topic in
  let formData :=
    if added then Values_Set formData "added" "t"
    else Values_Set formData "added" "f" in
  let* sealed := Seal w (secureForm b) formData in
  match sealed with
  | inl err => ret (Some (foreignError err))
  | inr sealedForm =>
  let* posted := PostForm w (addTopicURL b) sealedForm in
  match posted with
  | inl err => ret (Some (foreignError err))
  | inr resp =>
  if (StatusCode resp <? 200) || (299 <? StatusCode resp) then
    match ioutil_ReadAll (Body resp) with
    | inl err =>
        ret (Some (ErrBackendNotOK
                     ("(error reading non-2xx response): " +:+ lib_Error err)
                     (StatusCode resp)))
    | inr respBytes => ret (Some (ErrBackendNotOK respBytes (StatusCode resp)))
    end
  else
    let* now := time_Now w in
    let* _ := setLastSuccess bPathAddTopic now in
    ret None
  end end.

Definition SendNewTopicNotice (topic : string) : M (option error) :=
  sendTopicNotice topic true.

Definition SendCleanupTopicsNotice (topics : list string) : M (option error) :=
  sendTopicNotice (strings_Join topics ",") false.

End Client.

(** ** A concrete world

    Fixtures on which the model is run: a backend that answers every
    request with the same response, a clock that advances by one second
    per reading, and a codec for a few JSON literals. *)

Definition demoConfig : ConfigFile :=
  {| cfg_ServerID := 7; cfg_BackendURL := "http://localhost:8002/ffz";
     cfg_BackendPublicKey := [1; 2; 3]; cfg_OurPrivateKey := [4; 5; 6] |}.

Definition demoClock (t : nat) : Time := (1000 + Z.of_nat t) * Second.

Definition demoUnmarshal (s : string) : libError + JSONValue :=
  if String.eqb s "null" then inr JNull
  else if String.eqb s "true" then inr (JBool true)
  else if String.eqb s "false" then inr (JBool false)
  else if String.eqb s "[]" then inr (JArray [])
  else inl {| lib_Error := "invalid character looking for beginning of value" |}.

Definition demoMarshal (v : JSONValue) : string * option libError :=
  match v with
  | JNull => ("null", None)
  | JBool true => ("true", None)
  | JBool false => ("false", None)
  | JArray [] => ("[]", None)
  | _ => ("", Some {| lib_Error := "json: unsupported value" |})
  end.

Definition demoSealed (t : nat) (info : ServerInfo) : url_Values :=
  {[ "id" := [Sprintf_d (ServerID info)];
     "nonce" := [Sprintf_d (Z.of_nat t)];
     "msg" := ["c2VhbGVk"] ]}.

Definition demoWorld (resp : Response) : World :=
  {| w_Seal := fun t info _ => inr (demoSealed t info);
     w_PostForm := fun _ _ _ => inr resp;
     w_Now := demoClock;
     w_json_Unmarshal := demoUnmarshal;
     w_json_Marshal := demoMarshal;
     w_box_Precompute := fun _ _ => repeat 0 32 |}.

Definition demoState (resp : Response) : State :=
  {| backend := setupBackend (demoWorld resp) demoConfig; tick := 0;
     seals := []; posts := [] |}.

Definition demoAuth : AuthInfo :=
  {| TwitchUsername := "alice"; UsernameValidated := true |}.

Definition otherAuth : AuthInfo :=
  {| TwitchUsername := "bob"; UsernameValidated := false |}.

Definition okBody (text : string) : ReadCloser :=
  {| body_ReadAll := inr text; body_Close := None |}.

Definition respWith (code : Z) (h : http_Header) (text : string) : Response :=
  {| StatusCode := code; Header := h; Body := okBody text |}.

(** Answers of the backend used below. *)
Definition resp401 : Response := respWith 401 ∅ "whatever".

Definition respHint : Response := respWith 200 {[ "Ffz-Cache" := ["5"] ]} "hello".

Definition respZeroHint : Response := respWith 200 {[ "Ffz-Cache" := ["0"] ]} "hello".

Definition respBadHint : Response := respWith 200 {[ "Ffz-Cache" := ["soon"] ]} "hello".

Definition respJSON : Response :=
  respWith 500 {[ "Content-Type" := ["application/json; charset=utf-8"] ]} "null".

Definition respSpacedJSON : Response :=
  respWith 500 {[ "Content-Type" := [" application/json"] ]} "null".

Definition respNoContent : Response := respWith 204 ∅ "".

Definition readError : libError := {| lib_Error := "unexpected EOF" |}.

Definition respUnreadable : Response :=
  {| StatusCode := 200; Header := ∅;
     Body := {| body_ReadAll := inl readError; body_Close := None |} |}.

Definition closeError : libError := {| lib_Error := "connection reset by peer" |}.

Definition respCloseFails : Response :=
  {| StatusCode := 200; Header := ∅;
     Body := {| body_ReadAll := inr ""; body_Close := Some closeError |} |}.

Definition statsForm : url_Values := {[ "emotes" := ["12"] ]}.

(** The runs on which the statements of the specification are compared
    with the program. *)
Definition zeroHintRun : (string * option error) * State :=
  SendRemoteCommand (demoWorld respZeroHint) "echo" "x" demoAuth (demoState respZeroHint).

Definition spacedJSONRun : (string * option error) * State :=
  SendRemoteCommand (demoWorld respSpacedJSON) "echo" "x" demoAuth
                    (demoState respSpacedJSON).

Definition closeFailsRun : option error * State :=
  SendAggregatedData (demoWorld respCloseFails) statsForm
                     (demoState respCloseFails).

Definition unreadableRun : (string * option error) * State :=
  SendRemoteCommand (demoWorld respUnreadable) "echo" "x" demoAuth
                    (demoState respUnreadable).

(** The sealed form of the first request in the concrete world. *)
Definition firstSealed (resp : Response) : url_Values :=
  demoSealed 0 (secureForm (backend (demoState resp))).

(** The state after a first remote command that was answered with
    [respHint]: the response is cached for five seconds. *)
Definition warmState : State :=
  snd (SendRemoteCommand (demoWorld respHint) "echo" "x" demoAuth (demoState respHint)).

(** ** Vocabulary of the statements *)

(** The form of a remote command, as [SendRemoteCommand] builds it. *)
Definition commandForm (data : string) (auth : AuthInfo) : url_Values :=
  if UsernameValidated auth
  then Values_Set {[ "clientData" := [data]; "username" := [TwitchUsername auth] ]}
                  "authenticated" "1"
  else Values_Set {[ "clientData" := [data]; "username" := [TwitchUsername auth] ]}
                  "authenticated" "0".

Definition commandURL (s : State) (remoteCommand : string) : string :=
  baseURL (backend s) +:+ "/cmd/" +:+ remoteCommand.

(** The form of a topic notice, as [sendTopicNotice] builds it. *)
Definition topicForm (channels : string) (added : bool) : url_Values :=
  if added then Values_Set (Values_Set ∅ "channels" channels) "added" "t"
  else Values_Set (Values_Set ∅ "channels" channels) "added" "f".

(** In state [s], sealing [form] succeeds with [sealedForm] and the POST
    of it to [url] is answered by [resp]. *)
Definition answered (w : World) (s : State) (url : string)
    (form sealedForm : url_Values) (resp : Response) : Prop :=
  w_Seal w (tick s) (secureForm (backend s)) form = inr sealedForm
  /\ w_PostForm w (S (tick s)) url sealedForm = inr resp.

(** The state once [form] has been sealed and sent to [url]. *)
Definition sent (s : State) (url : string) (form sealedForm : url_Values) : State :=
  {| backend := backend s; tick := S (S (tick s));
     seals := seals s ++ [form];
     posts := posts s ++ [(url, sealedForm)] |}.

(** The state [s] one interaction later, with the client [b]. *)
Definition after (s : State) (b : backendInfo) : State :=
  {| backend := b; tick := S (tick s); seals := seals s; posts := posts s |}.

Definition is2xx (resp : Response) : Prop := 200 <= StatusCode resp <= 299.

(** An item has not expired at [now]: it has no expiry, or its expiry
    is not in the past. *)
Definition unexpired (now : Time) (it : Item) : Prop :=
  Expiration it <= 0 \/ now <= Expiration it.

(** The cache holds the value [v] under [k], unexpired at [now]. *)
Definition holds (c : Cache) (now : Time) (k v : string) : Prop :=
  exists it, items c !! k = Some it /\ Object it = v /\ unexpired now it.

(** The media type [SendRemoteCommand] compares with the JSON media
    type: a header with a [;] is cut before it and trimmed, a header
    without one is taken as it is. *)
Definition mediaType (contentType : string) : string :=
  let splitIdx := strings_IndexRune contentType ";" in
  if negb (splitIdx =? -1)
  then strings_TrimSpace (slice_to contentType splitIdx)
  else contentType.

(** The media type with the parameters stripped and white space trimmed
    in every case. *)
Definition trimmedMediaType (contentType : string) : string :=
  let splitIdx := strings_IndexRune contentType ";" in
  strings_TrimSpace
    (if negb (splitIdx =? -1) then slice_to contentType splitIdx else contentType).

(** The client after a successful remote command that cached its
    response with expiry [e] and recorded the success at [t]. *)
Definition cachedAndHealthy (b : backendInfo) (remoteCommand data body : string)
    (e : Z) (t : Time) : backendInfo :=
  with_lastSuccess
    (<["/cmd/" +:+ remoteCommand := t]> (<[bPathOtherCommand := t]> (lastSuccess b)))
    (with_responseCache
       {| defaultExpiration := defaultExpiration (responseCache b);
          items := <[getCacheKey remoteCommand data :=
                       {| Object := body; Expiration := e |}]>
                     (items (responseCache b)) |}
       b).

(** The client after a success recorded in one health bucket. *)
Definition healthy (b : backendInfo) (bucket : string) (t : Time) : backendInfo :=
  with_lastSuccess (<[bucket := t]> (lastSuccess b)) b.

(** The cache of [b] keeps [body] under [key] with expiry [e]. *)
Definition cachedWithExpiry (b : backendInfo) (key body : string) (e : Z) : Prop :=
  items (responseCache b) !! key = Some {| Object := body; Expiration := e |}.

(** What no operation changes: the endpoints, the sealing data and the
    default expiration of the cache are those of [setupBackend]. *)
Definition sameSetup (b b' : backendInfo) : Prop :=
  HTTPClient_Timeout b' = HTTPClient_Timeout b
  /\ baseURL b' = baseURL b
  /\ postStatisticsURL b' = postStatisticsURL b
  /\ addTopicURL b' = addTopicURL b
  /\ announceStartupURL b' = announceStartupURL b
  /\ secureForm b' = secureForm b
  /\ defaultExpiration (responseCache b') = defaultExpiration (responseCache b).

(** A computation that leaves the setup as it found it. *)
Definition preserves {A} (m : M A) : Prop :=
  forall s, sameSetup (backend s) (backend (snd (m s))).

(** What a topic notice does once its request is answered. *)
Definition topicNoticeOutcome (w : World) (run : M (option error))
    (channels : string) (added : bool) (s : State) : Prop :=
  forall sealedForm resp,
    answered w s (addTopicURL (backend s)) (topicForm channels added) sealedForm resp ->
    let form := topicForm channels added in
    let s2 := sent s (addTopicURL (backend s)) form sealedForm in
    (is2xx resp ->
       run s = (None,
                after s2 (healthy (backend s) bPathAddTopic (w_Now w (S (S (tick s)))))))
    /\ (~ is2xx resp ->
        forall body, ioutil_ReadAll (Body resp) = inr body ->
          run s = (Some (ErrBackendNotOK body (StatusCode resp)), s2))
    /\ (~ is2xx resp ->
        forall e, ioutil_ReadAll (Body resp) = inl e ->
          run s = (Some (ErrBackendNotOK
                           ("(error reading non-2xx response): " +:+ lib_Error e)
                           (StatusCode resp)),
                   s2)).

(** ** Vocabulary of the further statements *)

(** The calls of [HTTPClient.PostForm] made between [s] and [s']: none,
    or one call, with the URL [url]. *)
Definition atMostOnePost (s s' : State) (url : string) : Prop :=
  posts s' = posts s \/ exists sealedForm, posts s' = posts s ++ [(url, sealedForm)].

(** A successful remote command on the client [b]: both buckets of the
    command hold the clock reading [t], and the cache is as it was or
    has [body] stored under [key]. *)
Definition commandSucceeded (b b' : backendInfo) (remoteCommand key body : string)
    (t : Time) : Prop :=
  lastSuccess b'
  = <["/cmd/" +:+ remoteCommand := t]> (<[bPathOtherCommand := t]> (lastSuccess b))
  /\ (items (responseCache b') = items (responseCache b)
      \/ exists e, items (responseCache b')
                   = <[key := {| Object := body; Expiration := e |}]>
                       (items (responseCache b))).

(** What a topic notice leaves behind, whatever the outside does:
    [run] is the result of the notice started in [s]. *)
Definition topicNoticeEffect (w : World) (s : State) (run : option error * State)
    (channels : string) (added : bool) : Prop :=
  seals (snd run) = seals s ++ [topicForm channels added]
  /\ atMostOnePost s (snd run) (addTopicURL (backend s))
  /\ responseCache (backend (snd run)) = responseCache (backend s)
  /\ (forall bucket, bucket <> bPathAddTopic ->
        lastSuccess (backend (snd run)) !! bucket = lastSuccess (backend s) !! bucket)
  /\ (fst run <> None -> backend (snd run) = backend s)
  /\ (fst run = None ->
      lastSuccess (backend (snd run)) !! bPathAddTopic
      = Some (w_Now w (S (S (tick s))))).

(** The calls a user of the client can make. *)
Inductive Call :=
| CallRemoteCommand (remoteCommand data : string) (auth : AuthInfo)
| CallRemoteCommandCached (remoteCommand data : string) (auth : AuthInfo)
| CallAggregatedData (form : url_Values)
| CallNewTopicNotice (topic : string)
| CallCleanupTopicsNotice (topics : list string).

(** The state after a call, its result set aside. *)
Definition perform (w : World) (c : Call) (s : State) : State :=
  match c with
  | CallRemoteCommand remoteCommand data auth =>
      snd (SendRemoteCommand w remoteCommand data auth s)
  | CallRemoteCommandCached remoteCommand data auth =>
      snd (SendRemoteCommandCached w remoteCommand data auth s)
  | CallAggregatedData form => snd (SendAggregatedData w form s)
  | CallNewTopicNotice topic => snd (SendNewTopicNotice w topic s)
  | CallCleanupTopicsNotice topics => snd (SendCleanupTopicsNotice w topics s)
  end.

(** The state after a sequence of calls, made one after the other. *)
Fixpoint performAll (w : World) (cs : list Call) (s : State) : State :=
  match cs with
  | [] => s
  | c :: rest => performAll w rest (perform w c s)
  end.

(** From [s] to [s'] the setup is kept, [HTTPClient.PostForm] is called
    at most [n] times, after the calls of [s], and no health bucket is
    lost. *)
Definition grows (n : nat) (s s' : State) : Prop :=
  sameSetup (backend s) (backend s')
  /\ (exists new, posts s' = posts s ++ new /\ (length new <= n)%nat)
  /\ (forall bucket, is_Some (lastSuccess (backend s) !! bucket) ->
        is_Some (lastSuccess (backend s') !! bucket)).

(** A topic name without a comma. *)
Definition commaFree (topic : string) : Prop := strings_IndexRune topic "," = -1.

(** ** [GenerateKeys]

    The command that makes a key pair and writes the default
    configuration file.  It runs once, outside the client, with its own
    collaborators. *)

(** [strconv.Atoi] on a 64-bit platform: [ParseInt(s, 10, 0)] with the
    function name of the error replaced. *)
Definition Atoi (s : string) : error + Z :=
  match ParseInt s with
  | inl (NumError _ num err) => inl (NumError "Atoi" num err)
  | other => other
  end.

(** Modelled from the spec: the fields of [ConfigFile] that
    [GenerateKeys] fills in (the declaration is in another file of the
    package); a byte slice is [None] while it is [nil]. *)
Record GeneratedConfig := {
  gen_ListenAddr : string;
  gen_SSLListenAddr : string;
  gen_BackendURL : string;
  gen_MinMemoryKBytes : Z;
  gen_ServerID : Z;
  gen_OurPublicKey : option (list Z);
  gen_OurPrivateKey : option (list Z);
  gen_BackendPublicKey : option (list Z)
}.

(** What [GenerateKeys] relies on: the constant [defaultMinMemoryKB]
    (declared in another file of the package), [box.GenerateKey] on the
    system's random source, reading a whole [base64.StdEncoding]
    decoder, [json.MarshalIndent] with a tab, and [ioutil.WriteFile]. *)
Record KeygenHost := {
  k_defaultMinMemoryKB : Z;
  k_GenerateKey : libError + (list Z * list Z);
  k_base64_ReadAll : string -> libError + list Z;
  k_MarshalIndent : GeneratedConfig -> libError + string;
  k_WriteFile : string -> string -> Z -> option libError
}.

(** How the command ends: it returns, or [log.Fatal] stops the process
    with an error. *)
Inductive Exit :=
| Returned
| Fatal (err : error).

(** What the command did: the keys it drew, the lines it printed and
    the calls of [WriteFile] it made (name, contents, permissions). *)
Record Trace := {
  keysDrawn : nat;
  stdout : list string;
  writes : list (string * string * Z)
}.

(** [GenerateKeys]: each [log.Fatal] ends the run; the permissions
    [0600] of the file are the number 384. *)
Definition GenerateKeys (h : KeygenHost) (outputFile serverID theirPublicStr : string)
  : Exit * Trace :=
  let output :=
    {| gen_ListenAddr := "0.0.0.0:8001";
       gen_SSLListenAddr := "0.0.0.0:443";
       gen_BackendURL := "http://localhost:8002/ffz";
       gen_MinMemoryKBytes := k_defaultMinMemoryKB h;
       gen_ServerID := 0;
       gen_OurPublicKey := None;
       gen_OurPrivateKey := None;
       gen_BackendPublicKey := None |} in
  match Atoi serverID with
  | inl err => (Fatal err, {| keysDrawn := 0; stdout := []; writes := [] |})
  | inr id =>
  match k_GenerateKey h with
  | inl err =>
      (Fatal (foreignError err), {| keysDrawn := 1; stdout := []; writes := [] |})
  | inr (ourPublic, ourPrivate) =>
  let decoded :=
    if negb (String.eqb theirPublicStr "") then
      match k_base64_ReadAll h theirPublicStr with
      | inl err => inl err
      | inr theirPublic => inr (Some theirPublic)
      end
    else inr (gen_BackendPublicKey output) in
  match decoded with
  | inl err =>
      (Fatal (foreignError err), {| keysDrawn := 1; stdout := []; writes := [] |})
  | inr backendPublicKey =>
  let output :=
    {| gen_ListenAddr := gen_ListenAddr output;
       gen_SSLListenAddr := gen_SSLListenAddr output;
       gen_BackendURL := gen_BackendURL output;
       gen_MinMemoryKBytes := gen_MinMemoryKBytes output;
       gen_ServerID := id;
       gen_OurPublicKey := Some ourPublic;
       gen_OurPrivateKey := Some ourPrivate;
       gen_BackendPublicKey := backendPublicKey |} in
  match k_MarshalIndent h output with
  | inl err =>
      (Fatal (foreignError err), {| keysDrawn := 1; stdout := []; writes := [] |})
  | inr bytes =>
  let printed := [bytes +:+ String (ascii_of_nat 10) ""] in
  match k_WriteFile h outputFile bytes 384 with
  | Some err =>
      (Fatal (foreignError err),
       {| keysDrawn := 1; stdout := printed; writes := [(outputFile, bytes, 384)] |})
  | None =>
      (Returned,
       {| keysDrawn := 1; stdout := printed; writes := [(outputFile, bytes, 384)] |})
  end end end end end.

(** A host for the examples: fixed keys, a decoder that knows one
    encoded key, a marshaller that prints the server id. *)
Definition demoHost : KeygenHost :=
  {| k_defaultMinMemoryKB := 1048576;
     k_GenerateKey := inr (repeat 1 32, repeat 2 32);
     k_base64_ReadAll := fun s =>
       if String.eqb s "AQID" then inr [1; 2; 3]
       else inl {| lib_Error := "illegal base64 data at input byte 0" |};
     k_MarshalIndent := fun c => inr ("{ServerID: " +:+ Sprintf_d (gen_ServerID c) +:+ "}");
     k_WriteFile := fun _ _ _ => None |}.

(** The configuration [GenerateKeys] marshals: the default addresses,
    the server id, the key pair and the backend key. *)
Definition generatedConfig (h : KeygenHost) (id : Z) (ourPublic ourPrivate : list Z)
    (backendPublicKey : option (list Z)) : GeneratedConfig :=
  {| gen_ListenAddr := "0.0.0.0:8001";
     gen_SSLListenAddr := "0.0.0.0:443";
     gen_BackendURL := "http://localhost:8002/ffz";
     gen_MinMemoryKBytes := k_defaultMinMemoryKB h;
     gen_ServerID := id;
     gen_OurPublicKey := Some ourPublic;
     gen_OurPrivateKey := Some ourPrivate;
     gen_BackendPublicKey := backendPublicKey |}.

(** The backend key of the configuration: [nil] when no key is given,
    the decoded bytes when a key is given and decodes. *)
Definition backendKeyOf (h : KeygenHost) (theirPublicStr : string)
    (backendPublicKey : option (list Z)) : Prop :=
  (theirPublicStr = "" /\ backendPublicKey = None)
  \/ (theirPublicStr <> ""
      /\ exists theirPublic,
           k_base64_ReadAll h theirPublicStr = inr theirPublic
           /\ backendPublicKey = Some theirPublic).

(** Every step of [GenerateKeys] succeeds, with these results. *)
Definition keygenSucceeds (h : KeygenHost) (outputFile serverID theirPublicStr : string)
    (bytes : string) : Prop :=
  exists id ourPublic ourPrivate backendPublicKey,
    Atoi serverID = inr id
    /\ k_GenerateKey h = inr (ourPublic, ourPrivate)
    /\ backendKeyOf h theirPublicStr backendPublicKey
    /\ k_MarshalIndent h (generatedConfig h id ourPublic ourPrivate backendPublicKey)
       = inr bytes
    /\ k_WriteFile h outputFile bytes 384 = None.

(** Further answers and states of the concrete world. *)
Definition respPlain : Response := respWith 200 ∅ "hello".

(** A negative hint whose seconds do not fit 64 bits of nanoseconds. *)
Definition respWrapHint : Response :=
  respWith 200 {[ "Ffz-Cache" := ["-18446744073"] ]} "hello".

Definition wrapHintRun : (string * option error) * State :=
  SendRemoteCommand (demoWorld respWrapHint) "echo" "x" demoAuth (demoState respWrapHint).

(** The state after the command [a/b] with data [c] was answered with
    [respHint]. *)
Definition slashState : State :=
  snd (SendRemoteCommand (demoWorld respHint) "a/b" "c" demoAuth (demoState respHint)).

Definition demoCalls : list Call :=
  [ CallRemoteCommandCached "echo" "x" demoAuth;
    CallRemoteCommandCached "echo" "x" otherAuth;
    CallAggregatedData statsForm;
    CallNewTopicNotice "room.x";
    CallCleanupTopicsNotice ["room.x"; "room.y"] ].

(** * Properties *)

Ltac call_steps :=
  cbv beta iota zeta delta [bind getBackend Seal PostForm ret time_Now
                            modifyBackend setLastSuccess ioutil_ReadAll];
  cbn [backend tick seals posts next fst snd].

Ltac answer_with H :=
  let Hs := fresh "Hseal" in
  let Hp := fresh "Hpost" in
  destruct H as [Hs Hp];
  call_steps; rewrite Hs;
  call_steps; rewrite Hp; call_steps.

Lemma wrap64_small (z : Z) : MinInt64 <= z <= MaxInt64 -> wrap64 z = z.
Proof.
  unfold MinInt64, MaxInt64, wrap64. intros H.
  rewrite Z.mod_small by lia. lia.
Qed.

Lemma test_2xx (resp : Response) :
  is2xx resp -> (StatusCode resp <? 200) || (299 <? StatusCode resp) = false.
Proof.
  unfold is2xx. intros H. apply orb_false_iff. split; apply Z.ltb_ge; lia.
Qed.

Lemma test_not_2xx (resp : Response) :
  ~ is2xx resp -> (StatusCode resp <? 200) || (299 <? StatusCode resp) = true.
Proof.
  unfold is2xx. intros H. apply orb_true_iff.
  destruct (Z.ltb_spec (StatusCode resp) 200); [now left | right].
  apply Z.ltb_lt. lia.
Qed.

Lemma test_not_401 (resp : Response) :
  is2xx resp -> (StatusCode resp =? 401) = false.
Proof. unfold is2xx. intros H. apply Z.eqb_neq. lia. Qed.

Lemma ParseInt_empty : exists e, ParseInt "" = inl e.
Proof. eexists. reflexivity. Qed.

Lemma hint_present (h : string) (n : Z) :
  ParseInt h = inr n -> negb (String.eqb h "") = true.
Proof.
  intros H. destruct (String.eqb_spec h "") as [-> | Hne]; [| reflexivity].
  destruct ParseInt_empty as [e He]. congruence.
Qed.

Lemma hint_nonempty (h : string) :
  h <> "" -> negb (String.eqb h "") = true.
Proof. intros H. apply negb_true_iff. now apply String.eqb_neq. Qed.

Section Properties.

Variable w : World.

(** ** The setup is never changed *)

Lemma sameSetup_refl (b : backendInfo) : sameSetup b b.
Proof. repeat split. Qed.

Lemma sameSetup_trans (b1 b2 b3 : backendInfo) :
  sameSetup b1 b2 -> sameSetup b2 b3 -> sameSetup b1 b3.
Proof.
  unfold sameSetup. intros H12 H23.
  repeat match goal with H : _ /\ _ |- _ => destruct H end.
  repeat split; congruence.
Qed.

Lemma setupBackend_defaultExpiration (config : ConfigFile) :
  defaultExpiration (responseCache (setupBackend w config)) = 60 * Second.
Proof. reflexivity. Qed.

Lemma preserves_ret {A} (a : A) : preserves (ret a).
Proof. intros s. apply sameSetup_refl. Qed.

Lemma preserves_bind {A B} (m : M A) (k : A -> M B) :
  preserves m -> (forall a, preserves (k a)) -> preserves (bind m k).
Proof.
  intros Hm Hk s. unfold bind. specialize (Hm s).
  destruct (m s) as [a s1]. apply (sameSetup_trans _ _ _ Hm (Hk a s1)).
Qed.

Lemma preserves_getBackend : preserves getBackend.
Proof. intros s. apply sameSetup_refl. Qed.

Lemma preserves_time_Now : preserves (time_Now w).
Proof. intros s. apply sameSetup_refl. Qed.

Lemma preserves_Seal (info : ServerInfo) (form : url_Values) :
  preserves (Seal w info form).
Proof. intros s. apply sameSetup_refl. Qed.

Lemma preserves_PostForm (url : string) (form : url_Values) :
  preserves (PostForm w url form).
Proof. intros s. apply sameSetup_refl. Qed.

Lemma preserves_setLastSuccess (bucket : string) (t : Time) :
  preserves (setLastSuccess bucket t).
Proof. intros s. repeat split. Qed.

Ltac preserve :=
  repeat first
    [ apply preserves_ret
    | apply preserves_getBackend
    | apply preserves_time_Now
    | apply preserves_Seal
    | apply preserves_PostForm
    | apply preserves_setLastSuccess
    | apply preserves_bind; [| intros ?]
    | match goal with
      | |- preserves (match ?x with _ => _ end) => destruct x
      end ].

Lemma preserves_responseCache_Get (k : string) : preserves (responseCache_Get w k).
Proof. unfold responseCache_Get. preserve. Qed.

Lemma preserves_responseCache_Set (k x : string) (d : Z) :
  preserves (responseCache_Set w k x d).
Proof.
  unfold responseCache_Set. cbv zeta.
  apply preserves_bind; [apply preserves_getBackend | intros b].
  apply preserves_bind; [| intros e; intros s; repeat split].
  destruct (0 <? _); preserve.
Qed.

Lemma SendRemoteCommand_sameSetup (remoteCommand data : string) (auth : AuthInfo) :
  preserves (SendRemoteCommand w remoteCommand data auth).
Proof.
  unfold SendRemoteCommand. cbv zeta. preserve.
Qed.

Lemma SendRemoteCommandCached_sameSetup (remoteCommand data : string)
    (auth : AuthInfo) :
  preserves (SendRemoteCommandCached w remoteCommand data auth).
Proof.
  unfold SendRemoteCommandCached. cbv zeta.
  apply preserves_bind; [apply preserves_responseCache_Get | intros [v |]].
  - apply preserves_ret.
  - apply SendRemoteCommand_sameSetup.
Qed.

Lemma SendAggregatedData_sameSetup (form : url_Values) :
  preserves (SendAggregatedData w form).
Proof. unfold SendAggregatedData. cbv zeta. preserve. Qed.

Lemma sendTopicNotice_sameSetup (topic : string) (added : bool) :
  preserves (sendTopicNotice w topic added).
Proof. unfold sendTopicNotice. cbv zeta. preserve. Qed.

(** ** Failures before an answer *)

(** A failure of [Seal] is returned as it is and nothing is sent. *)
Lemma SendRemoteCommand_seal_failure (s : State) (remoteCommand data : string)
    (auth : AuthInfo) (e : libError) :
  w_Seal w (tick s) (secureForm (backend s)) (commandForm data auth) = inl e ->
  let run := SendRemoteCommand w remoteCommand data auth s in
  fst run = ("", Some (foreignError e))
  /\ posts (snd run) = posts s /\ backend (snd run) = backend s.
Proof.
  intros Hseal. unfold SendRemoteCommand, commandForm in *.
  call_steps. rewrite Hseal. repeat split.
Qed.

(** A failure of the transport is returned as it is. *)
Lemma SendRemoteCommand_transport_failure (s : State) (remoteCommand data : string)
    (auth : AuthInfo) (sealedForm : url_Values) (e : libError) :
  w_Seal w (tick s) (secureForm (backend s)) (commandForm data auth) = inr sealedForm ->
  w_PostForm w (S (tick s)) (commandURL s remoteCommand) sealedForm = inl e ->
  SendRemoteCommand w remoteCommand data auth s
  = (("", Some (foreignError e)),
     sent s (commandURL s remoteCommand) (commandForm data auth) sealedForm).
Proof.
  intros Hseal Hpost. unfold SendRemoteCommand, commandURL, commandForm in *.
  call_steps. rewrite Hseal. call_steps. rewrite Hpost. reflexivity.
Qed.

(** ** The remote command *)

(** C4: a 401 answer whose body can be read gives the empty response and
    the sentinel [ErrAuthorizationNeeded], whatever the body and the
    headers are; the client is left as it was. *)
Theorem SendRemoteCommand_401 (s : State) (remoteCommand data : string)
    (auth : AuthInfo) (sealedForm : url_Values) (resp : Response) (body : string) :
  answered w s (commandURL s remoteCommand) (commandForm data auth) sealedForm resp ->
  StatusCode resp = 401 ->
  ioutil_ReadAll (Body resp) = inr body ->
  SendRemoteCommand w remoteCommand data auth s
  = (("", Some ErrAuthorizationNeeded),
     sent s (commandURL s remoteCommand) (commandForm data auth) sealedForm).
Proof.
  intros Hans H401 Hread.
  unfold SendRemoteCommand, commandURL, commandForm in *.
  answer_with Hans. unfold ioutil_ReadAll in Hread. rewrite Hread.
  rewrite H401. reflexivity.
Qed.

(** C6: a 2xx answer with a non-empty [FFZ-Cache] header that
    [strconv.ParseInt] rejects makes the whole call fail, although the
    request itself succeeded: the response is empty and the error is the
    one that reports the non-integer cache duration. *)
Theorem SendRemoteCommand_malformed_hint_fails (s : State)
    (remoteCommand data : string) (auth : AuthInfo) (sealedForm : url_Values)
    (resp : Response) (body : string) (e : error) :
  answered w s (commandURL s remoteCommand) (commandForm data auth) sealedForm resp ->
  ioutil_ReadAll (Body resp) = inr body ->
  is2xx resp ->
  Header_Get (Header resp) "FFZ-Cache" <> "" ->
  ParseInt (Header_Get (Header resp) "FFZ-Cache") = inl e ->
  fst (SendRemoteCommand w remoteCommand data auth s)
  = ("", Some (Errorf "The RPC server returned a non-integer cache duration: %v"
                      [ArgError e])).
Proof.
  intros Hans Hread H2xx Hne Hparse.
  unfold SendRemoteCommand, commandURL, commandForm in *.
  answer_with Hans. unfold ioutil_ReadAll in Hread. rewrite Hread.
  rewrite (test_not_401 _ H2xx), (test_2xx _ H2xx), (hint_nonempty _ Hne), Hparse.
  reflexivity.
Qed.

(** C9 (as the code has it): when reading the response body fails, the
    call returns the empty response and the read error itself, not
    wrapped in anything; the client is left as it was. *)
Theorem SendRemoteCommand_unreadable_body (s : State)
    (remoteCommand data : string) (auth : AuthInfo) (sealedForm : url_Values)
    (resp : Response) (e : libError) :
  answered w s (commandURL s remoteCommand) (commandForm data auth) sealedForm resp ->
  ioutil_ReadAll (Body resp) = inl e ->
  SendRemoteCommand w remoteCommand data auth s
  = (("", Some (foreignError e)),
     sent s (commandURL s remoteCommand) (commandForm data auth) sealedForm).
Proof.
  intros Hans Hread.
  unfold SendRemoteCommand, commandURL, commandForm in *.
  answer_with Hans. unfold ioutil_ReadAll in Hread. rewrite Hread.
  reflexivity.
Qed.

(** C10: when the call fails on a malformed [FFZ-Cache] header of a 2xx
    answer, the client keeps its state: the response cache has no new
    entry and no health bucket has moved. *)
Theorem SendRemoteCommand_malformed_hint_keeps_state (s : State)
    (remoteCommand data : string) (auth : AuthInfo) (sealedForm : url_Values)
    (resp : Response) (body : string) (e : error) :
  answered w s (commandURL s remoteCommand) (commandForm data auth) sealedForm resp ->
  ioutil_ReadAll (Body resp) = inr body ->
  is2xx resp ->
  Header_Get (Header resp) "FFZ-Cache" <> "" ->
  ParseInt (Header_Get (Header resp) "FFZ-Cache") = inl e ->
  let s' := snd (SendRemoteCommand w remoteCommand data auth s) in
  backend s' = backend s
  /\ items (responseCache (backend s')) = items (responseCache (backend s))
  /\ lastSuccess (backend s') !! ("/cmd/" +:+ remoteCommand)
     = lastSuccess (backend s) !! ("/cmd/" +:+ remoteCommand)
  /\ lastSuccess (backend s') !! bPathOtherCommand
     = lastSuccess (backend s) !! bPathOtherCommand.
Proof.
  intros Hans Hread H2xx Hne Hparse.
  assert (Hrun : backend (snd (SendRemoteCommand w remoteCommand data auth s))
                 = backend s).
  { unfold SendRemoteCommand, commandURL, commandForm in *.
    answer_with Hans. unfold ioutil_ReadAll in Hread. rewrite Hread.
    rewrite (test_not_401 _ H2xx), (test_2xx _ H2xx), (hint_nonempty _ Hne), Hparse.
    reflexivity. }
  cbv zeta. rewrite Hrun. repeat split; reflexivity.
Qed.

(** C1 (as the code has it): a 2xx answer whose [FFZ-Cache] header
    parses to the integer [n] stores the body under the key of (command,
    data), sets the bucket of the command and the generic [/cmd/] bucket
    to the last clock reading of the call, and returns the body with a
    nil error.  As long as nothing leaves the [int64] range of
    nanoseconds, the expiry of the stored item is the clock reading of
    the store plus [n] seconds when [n] is positive (the reading is not
    negative and the sum is at most [MaxInt64]); for [n = 0] the default
    expiration of the cache, 60 seconds, takes the place of [n] (under
    the same bounds); and for a negative [n] whose [n] seconds are at
    least [MinInt64] nanoseconds, that is [n >= -9223372036], the item
    has no expiry.  What a hint outside these bounds gives is not part
    of the statement. *)
Theorem SendRemoteCommand_2xx_cache_hint (s : State)
    (remoteCommand data : string) (auth : AuthInfo) (sealedForm : url_Values)
    (resp : Response) (body : string) (n : Z) :
  answered w s (commandURL s remoteCommand) (commandForm data auth) sealedForm resp ->
  ioutil_ReadAll (Body resp) = inr body ->
  is2xx resp ->
  ParseInt (Header_Get (Header resp) "FFZ-Cache") = inr n ->
  let stored := w_Now w (S (S (tick s))) in
  exists (e : Z) (t : Time) (k : nat),
    SendRemoteCommand w remoteCommand data auth s
    = ((body, None),
       {| backend := cachedAndHealthy (backend s) remoteCommand data body e t;
          tick := k;
          seals := seals s ++ [commandForm data auth];
          posts := posts s ++ [(commandURL s remoteCommand, sealedForm)] |})
    /\ t = w_Now w (Nat.pred k)
    /\ (0 < n -> 0 <= stored -> stored + n * Second <= MaxInt64 ->
        e = stored + n * Second /\ t = w_Now w (S (S (S (tick s)))))
    /\ (n = 0 -> defaultExpiration (responseCache (backend s)) = 60 * Second ->
        0 <= stored -> stored + 60 * Second <= MaxInt64 ->
        e = stored + 60 * Second)
    /\ (n < 0 -> MinInt64 <= n * Second -> e = 0).
Proof.
  intros Hans Hread H2xx Hparse stored.
  unfold SendRemoteCommand, commandURL, commandForm in *.
  answer_with Hans. unfold ioutil_ReadAll in Hread. rewrite Hread.
  rewrite (test_not_401 _ H2xx), (test_2xx _ H2xx), (hint_present _ _ Hparse), Hparse.
  unfold responseCache_Set. call_steps.
  set (D := wrap64 (n * Second)).
  assert (HD : MinInt64 <= n * Second <= MaxInt64 -> D = n * Second)
    by (intros; now apply wrap64_small).
  unfold DefaultExpiration, MinInt64, MaxInt64, Second in *.
  destruct (D =? 0) eqn:E0;
    [ apply Z.eqb_eq in E0;
      destruct (0 <? defaultExpiration (responseCache (backend s))) eqn:E1
    | apply Z.eqb_neq in E0; destruct (0 <? D) eqn:E1 ];
    call_steps;
    (do 3 eexists; split; [reflexivity |]; split; [reflexivity |]);
    first [ apply Z.ltb_lt in E1 | apply Z.ltb_ge in E1 ];
    fold stored.
  - repeat split; intros; try lia.
    subst n. rewrite H0. apply wrap64_small.
    unfold MinInt64, MaxInt64. lia.
  - repeat split; intros; lia.
  - repeat split; intros; try lia.
    rewrite HD by lia. apply wrap64_small. unfold MinInt64, MaxInt64. lia.
  - repeat split; intros; lia.
Qed.

(** What [responseCache.Get] returns, in terms of [holds]. *)
Lemma responseCache_Get_hit (s : State) (k v : string) :
  holds (responseCache (backend s)) (w_Now w (tick s)) k v ->
  exists s', responseCache_Get w k s = (Some v, s')
             /\ backend s' = backend s /\ seals s' = seals s /\ posts s' = posts s.
Proof.
  intros (it & Hit & Hv & Hlive). unfold responseCache_Get, unexpired in *.
  call_steps. rewrite Hit.
  destruct (0 <? Expiration it) eqn:E; call_steps.
  - apply Z.ltb_lt in E.
    assert ((Expiration it <? w_Now w (tick s)) = false) as -> by (apply Z.ltb_ge; lia).
    subst v. eexists. repeat split.
  - subst v. eexists. repeat split.
Qed.

Lemma responseCache_Get_miss (s : State) (k : string) :
  (forall v, ~ holds (responseCache (backend s)) (w_Now w (tick s)) k v) ->
  exists s', responseCache_Get w k s = (None, s')
             /\ backend s' = backend s /\ seals s' = seals s /\ posts s' = posts s.
Proof.
  intros Hnone. unfold responseCache_Get. call_steps.
  destruct (items (responseCache (backend s)) !! k) as [it |] eqn:Hit.
  - destruct (0 <? Expiration it) eqn:E; call_steps.
    + destruct (Expiration it <? w_Now w (tick s)) eqn:E'.
      * eexists. repeat split.
      * exfalso. apply (Hnone (Object it)). exists it.
        apply Z.ltb_ge in E'. unfold unexpired. auto.
    + exfalso. apply (Hnone (Object it)). exists it.
      apply Z.ltb_ge in E. unfold unexpired. auto.
  - eexists. repeat split.
Qed.

(** C2: with an unexpired entry under the key of (command, data),
    [SendRemoteCommandCached] returns the cached value and a nil error,
    sends nothing and leaves the client as it was; without one, it is
    exactly the call of [SendRemoteCommand], made on the same client
    with nothing sent in between. *)
Theorem SendRemoteCommandCached_hit_or_call (s : State)
    (remoteCommand data : string) (auth : AuthInfo) :
  let key := getCacheKey remoteCommand data in
  let now := w_Now w (tick s) in
  (forall v, holds (responseCache (backend s)) now key v ->
     exists s', SendRemoteCommandCached w remoteCommand data auth s = ((v, None), s')
                /\ backend s' = backend s /\ seals s' = seals s
                /\ posts s' = posts s)
  /\ ((forall v, ~ holds (responseCache (backend s)) now key v) ->
      exists s1, backend s1 = backend s /\ seals s1 = seals s /\ posts s1 = posts s
                 /\ SendRemoteCommandCached w remoteCommand data auth s
                    = SendRemoteCommand w remoteCommand data auth s1).
Proof.
  intros key now. split.
  - intros v Hv.
    destruct (responseCache_Get_hit _ _ _ Hv) as (s' & Hget & Hb & Hs & Hp).
    exists s'. unfold SendRemoteCommandCached, bind. fold key. rewrite Hget.
    repeat split; assumption.
  - intros Hnone.
    destruct (responseCache_Get_miss _ _ Hnone) as (s1 & Hget & Hb & Hs & Hp).
    exists s1. unfold SendRemoteCommandCached, bind. fold key. rewrite Hget.
    repeat split; assumption.
Qed.

(** C3: the key of the cache is made of the command and the data alone,
    so a hit does not look at [AuthInfo]: with an unexpired entry for
    (command, data), two callers with different [AuthInfo] get the same
    cached value, whether they ask in the same state or one after the
    other. *)
Theorem SendRemoteCommandCached_ignores_auth (s : State)
    (remoteCommand data : string) (a1 a2 : AuthInfo) (v : string) :
  holds (responseCache (backend s)) (w_Now w (tick s))
        (getCacheKey remoteCommand data) v ->
  fst (SendRemoteCommandCached w remoteCommand data a1 s) = (v, None)
  /\ SendRemoteCommandCached w remoteCommand data a2 s
     = SendRemoteCommandCached w remoteCommand data a1 s
  /\ (let s1 := snd (SendRemoteCommandCached w remoteCommand data a1 s) in
      forall v', holds (responseCache (backend s1)) (w_Now w (tick s1))
                       (getCacheKey remoteCommand data) v' ->
                 fst (SendRemoteCommandCached w remoteCommand data a2 s1) = (v, None)).
Proof.
  intros Hv. destruct (responseCache_Get_hit _ _ _ Hv) as (s' & Hget & Hb & _).
  assert (Hrun : forall a, SendRemoteCommandCached w remoteCommand data a s
                           = ((v, None), s')).
  { intros a. unfold SendRemoteCommandCached, bind. now rewrite Hget. }
  rewrite !Hrun. repeat split. cbn [snd]. intros v' Hv'.
  destruct (responseCache_Get_hit _ _ _ Hv') as (s'' & Hget' & _ & _).
  unfold SendRemoteCommandCached, bind. rewrite Hget'. cbn [fst].
  destruct Hv as (it & Hit & Ho & _), Hv' as (it' & Hit' & Ho' & _).
  rewrite Hb in Hit'. unfold ret. cbn [fst]. congruence.
Qed.

Lemma mediaType_plain (contentType : string) :
  strings_IndexRune contentType ";" = -1 -> mediaType contentType = contentType.
Proof. unfold mediaType. intros ->. reflexivity. Qed.

Lemma mediaType_params (contentType : string) :
  strings_IndexRune contentType ";" <> -1 ->
  mediaType contentType
  = strings_TrimSpace (slice_to contentType (strings_IndexRune contentType ";")).
Proof.
  unfold mediaType. intros H. apply Z.eqb_neq in H. now rewrite H.
Qed.

(** C5 (as the code has it): for an answer that is neither 2xx nor 401
    and whose body can be read, the [Content-Type] header is cut before
    its first [;] and trimmed when it has one, and taken as it is when it
    has none.  If the result is exactly [application/json], the body is
    decoded as a JSON value and returned as an [ErrForwardedFromBackend],
    whose [Error()] is the marshalled value, or, when decoding fails, as
    a decode error of its own; otherwise the error is the generic HTTP
    error with the status code.  In every case the client is left as it
    was: nothing is cached. *)
Theorem SendRemoteCommand_error_answer (s : State)
    (remoteCommand data : string) (auth : AuthInfo) (sealedForm : url_Values)
    (resp : Response) (body : string) :
  answered w s (commandURL s remoteCommand) (commandForm data auth) sealedForm resp ->
  ioutil_ReadAll (Body resp) = inr body ->
  ~ is2xx resp ->
  StatusCode resp <> 401 ->
  let contentType := Header_Get (Header resp) "Content-Type" in
  let run := SendRemoteCommand w remoteCommand data auth s in
  snd run = sent s (commandURL s remoteCommand) (commandForm data auth) sealedForm
  /\ responseCache (backend (snd run)) = responseCache (backend s)
  /\ (mediaType contentType = "application/json" ->
      (forall v, w_json_Unmarshal w body = inr v ->
         fst run = ("", Some (ErrForwardedFromBackend v))
         /\ ErrForwardedFromBackend_Error w v = fst (w_json_Marshal w v))
      /\ (forall e, w_json_Unmarshal w body = inl e ->
            fst run
            = ("", Some (Errorf "error decoding json error from backend: %v | %s"
                                [ArgError (foreignError e); ArgString body]))))
  /\ (mediaType contentType <> "application/json" ->
      fst run = ("", Some (httpError (StatusCode resp)))).
Proof.
  intros Hans Hread Hnot H401 contentType run. subst run.
  unfold SendRemoteCommand, commandURL, commandForm in *.
  answer_with Hans. unfold ioutil_ReadAll in Hread. rewrite Hread.
  apply Z.eqb_neq in H401. rewrite H401, (test_not_2xx _ Hnot).
  fold contentType.
  change (if negb (strings_IndexRune contentType ";" =? -1)
          then strings_TrimSpace
                 (slice_to contentType (strings_IndexRune contentType ";"))
          else contentType) with (mediaType contentType).
  destruct (String.eqb_spec (mediaType contentType) "application/json") as [Hj | Hj].
  - destruct (w_json_Unmarshal w body) as [e | v] eqn:Hdec; call_steps;
      (split; [reflexivity |]); (split; [reflexivity |]);
      (split; [intros _ | intros Hc; contradiction]); split.
    + intros v Hv. discriminate.
    + intros e' He. congruence.
    + intros v' Hv'. split; [congruence |].
      unfold ErrForwardedFromBackend_Error. now destruct (w_json_Marshal w v').
    + intros e He. discriminate.
  - call_steps. (split; [reflexivity |]); (split; [reflexivity |]).
    split; [intros Hc; contradiction | intros _; reflexivity].
Qed.

Lemma topicForm_fields (channels : string) (added : bool) :
  topicForm channels added
  = {[ "channels" := [channels]; "added" := [if added then "t" else "f"] ]}.
Proof.
  unfold topicForm, Values_Set.
  destruct added; rewrite insert_empty; now apply insert_insert_ne.
Qed.

Lemma sendTopicNotice_outcome (channels : string) (added : bool) (s : State) :
  topicNoticeOutcome w (sendTopicNotice w channels added) channels added s.
Proof.
  intros sealedForm resp Hans.
  unfold sendTopicNotice, topicForm in *.
  assert (Hans' : answered w s (addTopicURL (backend s))
                    (if added
                     then Values_Set (Values_Set ∅ "channels" channels) "added" "t"
                     else Values_Set (Values_Set ∅ "channels" channels) "added" "f")
                    sealedForm resp) by exact Hans.
  clear Hans. answer_with Hans'.
  repeat split.
  - intros H2xx. rewrite (test_2xx _ H2xx). reflexivity.
  - intros Hnot body Hread. rewrite (test_not_2xx _ Hnot), Hread. reflexivity.
  - intros Hnot e Hread. rewrite (test_not_2xx _ Hnot), Hread. reflexivity.
Qed.

(** C7: both topic notices seal the form with exactly the fields
    [channels] (the topic, or the topics joined by commas) and [added]
    ([t] for a new topic, [f] for a cleanup).  On a 2xx answer the
    [/topics] bucket is set to the clock reading and nil is returned; on
    any other answer the error carries the status code and the body text,
    or a message about the read failure in its place, and the client is
    left as it was. *)
Theorem topic_notices (s : State) (topic : string) (topics : list string) :
  topicNoticeOutcome w (SendNewTopicNotice w topic) topic true s
  /\ topicNoticeOutcome w (SendCleanupTopicsNotice w topics)
                        (strings_Join topics ",") false s
  /\ topicForm topic true = {[ "channels" := [topic]; "added" := ["t"] ]}
  /\ topicForm (strings_Join topics ",") false
     = {[ "channels" := [strings_Join topics ","]; "added" := ["f"] ]}.
Proof.
  split; [| split; [| split]].
  - apply sendTopicNotice_outcome.
  - apply sendTopicNotice_outcome.
  - apply (topicForm_fields topic true).
  - apply (topicForm_fields (strings_Join topics ",") false).
Qed.

(** C8 (as the code has it): on a 2xx answer [SendAggregatedData] sets
    the [/stats] bucket to the clock reading, leaves every other bucket
    and the response cache as they were, and returns what closing the
    response body returns, nil when the close succeeds; on any other
    answer it returns the generic HTTP error with the status code,
    whatever the body is, and leaves the client as it was.  Its only
    result is an error value. *)
Theorem SendAggregatedData_outcome (s : State) (form sealedForm : url_Values)
    (resp : Response) :
  answered w s (postStatisticsURL (backend s)) form sealedForm resp ->
  let s' := snd (SendAggregatedData w form s) in
  (is2xx resp ->
     SendAggregatedData w form s
     = (foreignError <$> body_Close (Body resp),
        after (sent s (postStatisticsURL (backend s)) form sealedForm)
              (healthy (backend s) bPathAggStats (w_Now w (S (S (tick s))))))
     /\ (body_Close (Body resp) = None -> fst (SendAggregatedData w form s) = None)
     /\ responseCache (backend s') = responseCache (backend s)
     /\ (forall bucket, bucket <> bPathAggStats ->
           lastSuccess (backend s') !! bucket = lastSuccess (backend s) !! bucket))
  /\ (~ is2xx resp ->
      SendAggregatedData w form s
      = (Some (httpError (StatusCode resp)),
         sent s (postStatisticsURL (backend s)) form sealedForm)).
Proof.
  intros Hans s'. subst s'. unfold SendAggregatedData.
  answer_with Hans. split.
  - intros H2xx. rewrite (test_2xx _ H2xx). call_steps. repeat split.
    + intros ->. reflexivity.
    + intros bucket Hne. cbn. now apply lookup_insert_ne.
  - intros Hnot. rewrite (test_not_2xx _ Hnot). reflexivity.
Qed.

End Properties.

(** ** The library models on concrete inputs *)

Example TrimSpace_ascii : strings_TrimSpace "  application/json " = "application/json".
Proof. reflexivity. Qed.

Example TrimSpace_unicode :
  strings_TrimSpace (string_of_bytes [194; 160; 32; 97; 59; 226; 128; 137; 10])
  = string_of_bytes [97; 59].
Proof. reflexivity. Qed.

Example TrimSpace_inner_kept :
  strings_TrimSpace " text / plain " = "text / plain".
Proof. reflexivity. Qed.

Example IndexRune_found : strings_IndexRune "application/json; charset=utf-8" ";" = 16.
Proof. reflexivity. Qed.

Example IndexRune_missing : strings_IndexRune "text/plain" ";" = -1.
Proof. reflexivity. Qed.

Example mediaType_charset : mediaType "application/json; charset=utf-8" = "application/json".
Proof. reflexivity. Qed.

Example ParseInt_values :
  ParseInt "5" = inr 5 /\ ParseInt "-5" = inr (-5) /\ ParseInt "+12" = inr 12
  /\ ParseInt "9223372036854775807" = inr MaxInt64
  /\ ParseInt "-9223372036854775808" = inr MinInt64.
Proof. repeat split. Qed.

Example ParseInt_errors :
  ParseInt "soon" = inl (syntaxError "ParseInt" "soon")
  /\ ParseInt " 5" = inl (syntaxError "ParseInt" " 5")
  /\ ParseInt "5.0" = inl (syntaxError "ParseInt" "5.0")
  /\ ParseInt "9223372036854775808" = inl (rangeError "ParseInt" "9223372036854775808").
Proof. repeat split. Qed.

Example Header_Get_canonical :
  Header_Get (Header respHint) "FFZ-Cache" = "5"
  /\ Header_Get (Header respJSON) "Content-Type" = "application/json; charset=utf-8"
  /\ Header_Get (Header resp401) "FFZ-Cache" = "".
Proof. repeat split. Qed.

(** The response cached for one user is served to another: after the
    command of [demoAuth] was answered with a five second hint, the same
    command and data from [otherAuth] return the cached body and send
    nothing. *)
Example cache_shared_between_users :
  let run := SendRemoteCommandCached (demoWorld respHint) "echo" "x" otherAuth warmState in
  fst run = ("hello", None)
  /\ posts (snd run) = posts warmState
  /\ length (posts warmState) = 1%nat.
Proof. vm_compute. repeat split. Qed.

(** ** The theorems on the concrete world *)

Lemma SendRemoteCommand_401_witness :
  SendRemoteCommand (demoWorld resp401) "echo" "x" demoAuth (demoState resp401)
  = (("", Some ErrAuthorizationNeeded),
     sent (demoState resp401) (commandURL (demoState resp401) "echo")
          (commandForm "x" demoAuth) (firstSealed resp401)).
Proof.
  apply (SendRemoteCommand_401 (demoWorld resp401) (demoState resp401)
           "echo" "x" demoAuth (firstSealed resp401) resp401 "whatever").
  - split; reflexivity.
  - reflexivity.
  - reflexivity.
Defined.

Lemma SendRemoteCommand_malformed_hint_fails_witness :
  fst (SendRemoteCommand (demoWorld respBadHint) "echo" "x" demoAuth
                         (demoState respBadHint))
  = ("", Some (Errorf "The RPC server returned a non-integer cache duration: %v"
                      [ArgError (syntaxError "ParseInt" "soon")])).
Proof.
  apply (SendRemoteCommand_malformed_hint_fails (demoWorld respBadHint)
           (demoState respBadHint) "echo" "x" demoAuth (firstSealed respBadHint)
           respBadHint "hello").
  - split; reflexivity.
  - reflexivity.
  - unfold is2xx. simpl. lia.
  - vm_compute. discriminate.
  - reflexivity.
Defined.

Lemma SendRemoteCommand_malformed_hint_keeps_state_witness :
  backend (snd (SendRemoteCommand (demoWorld respBadHint) "echo" "x" demoAuth
                                  (demoState respBadHint)))
  = backend (demoState respBadHint).
Proof.
  apply (SendRemoteCommand_malformed_hint_keeps_state (demoWorld respBadHint)
           (demoState respBadHint) "echo" "x" demoAuth (firstSealed respBadHint)
           respBadHint "hello" (syntaxError "ParseInt" "soon")).
  - split; reflexivity.
  - reflexivity.
  - unfold is2xx. simpl. lia.
  - vm_compute. discriminate.
  - reflexivity.
Defined.

Lemma SendRemoteCommand_unreadable_body_witness :
  SendRemoteCommand (demoWorld respUnreadable) "echo" "x" demoAuth
                    (demoState respUnreadable)
  = (("", Some (foreignError readError)),
     sent (demoState respUnreadable) (commandURL (demoState respUnreadable) "echo")
          (commandForm "x" demoAuth) (firstSealed respUnreadable)).
Proof.
  apply (SendRemoteCommand_unreadable_body (demoWorld respUnreadable)
           (demoState respUnreadable) "echo" "x" demoAuth
           (firstSealed respUnreadable) respUnreadable readError).
  - split; reflexivity.
  - reflexivity.
Defined.

Lemma SendRemoteCommand_2xx_cache_hint_witness :
  fst (SendRemoteCommand (demoWorld respHint) "echo" "x" demoAuth (demoState respHint))
  = ("hello", None)
  /\ cachedWithExpiry (backend warmState) (getCacheKey "echo" "x") "hello"
                      (demoClock 2 + 5 * Second)
  /\ lastSuccess (backend warmState) !! "/cmd/echo" = Some (demoClock 3)
  /\ lastSuccess (backend warmState) !! bPathOtherCommand = Some (demoClock 3).
Proof.
  destruct (SendRemoteCommand_2xx_cache_hint (demoWorld respHint) (demoState respHint)
              "echo" "x" demoAuth (firstSealed respHint) respHint "hello" 5)
    as (e & t & k & Hrun & _ & Hpos & _).
  - split; reflexivity.
  - reflexivity.
  - unfold is2xx. simpl. lia.
  - reflexivity.
  - destruct Hpos as [He Ht].
    + lia.
    + vm_compute. discriminate.
    + vm_compute. discriminate.
    + unfold warmState, cachedWithExpiry. rewrite Hrun, He, Ht.
      repeat split; vm_compute; reflexivity.
Defined.

Lemma warmState_holds :
  holds (responseCache (backend warmState)) (demoClock (tick warmState))
        (getCacheKey "echo" "x") "hello".
Proof.
  exists {| Object := "hello"; Expiration := demoClock 2 + 5 * Second |}.
  split; [reflexivity |]. split; [reflexivity |].
  right. vm_compute. discriminate.
Qed.

Lemma SendRemoteCommandCached_hit_or_call_witness :
  (exists s', SendRemoteCommandCached (demoWorld respHint) "echo" "x" otherAuth warmState
              = (("hello", None), s')
              /\ backend s' = backend warmState /\ seals s' = seals warmState
              /\ posts s' = posts warmState)
  /\ (exists s1, backend s1 = backend (demoState respHint)
                 /\ seals s1 = seals (demoState respHint)
                 /\ posts s1 = posts (demoState respHint)
                 /\ SendRemoteCommandCached (demoWorld respHint) "echo" "x" otherAuth
                                            (demoState respHint)
                    = SendRemoteCommand (demoWorld respHint) "echo" "x" otherAuth s1).
Proof.
  split.
  - apply (proj1 (SendRemoteCommandCached_hit_or_call (demoWorld respHint) warmState
                    "echo" "x" otherAuth)).
    exact warmState_holds.
  - apply (proj2 (SendRemoteCommandCached_hit_or_call (demoWorld respHint)
                    (demoState respHint) "echo" "x" otherAuth)).
    intros v (it & Hit & _). vm_compute in Hit. discriminate.
Defined.

Lemma SendRemoteCommandCached_ignores_auth_witness :
  fst (SendRemoteCommandCached (demoWorld respHint) "echo" "x" demoAuth warmState)
  = ("hello", None)
  /\ SendRemoteCommandCached (demoWorld respHint) "echo" "x" otherAuth warmState
     = SendRemoteCommandCached (demoWorld respHint) "echo" "x" demoAuth warmState.
Proof.
  destruct (SendRemoteCommandCached_ignores_auth (demoWorld respHint) warmState
              "echo" "x" demoAuth otherAuth "hello" warmState_holds)
    as (H1 & H2 & _).
  split; assumption.
Defined.

Lemma SendRemoteCommand_error_answer_witness :
  fst (SendRemoteCommand (demoWorld respJSON) "echo" "x" demoAuth (demoState respJSON))
  = ("", Some (ErrForwardedFromBackend JNull))
  /\ ErrForwardedFromBackend_Error (demoWorld respJSON) JNull = "null".
Proof.
  destruct (SendRemoteCommand_error_answer (demoWorld respJSON) (demoState respJSON)
              "echo" "x" demoAuth (firstSealed respJSON) respJSON "null")
    as (_ & _ & Hjson & _).
  - split; reflexivity.
  - reflexivity.
  - unfold is2xx. simpl. lia.
  - simpl. lia.
  - destruct (Hjson eq_refl) as [Hv _].
    destruct (Hv JNull eq_refl) as [Hrun Herr].
    split; [exact Hrun | exact Herr].
Defined.

Lemma topic_notices_witness :
  SendNewTopicNotice (demoWorld respNoContent) "room.x" (demoState respNoContent)
  = (None,
     {| backend := healthy (backend (demoState respNoContent)) bPathAddTopic (demoClock 2);
        tick := 3;
        seals := [{[ "channels" := ["room.x"]; "added" := ["t"] ]}];
        posts := [(addTopicURL (backend (demoState respNoContent)),
                   firstSealed respNoContent)] |})
  /\ SendCleanupTopicsNotice (demoWorld resp401) ["room.a"; "room.b"] (demoState resp401)
     = (Some (ErrBackendNotOK "whatever" 401),
        sent (demoState resp401) (addTopicURL (backend (demoState resp401)))
             {[ "channels" := ["room.a,room.b"]; "added" := ["f"] ]}
             (firstSealed resp401)).
Proof.
  split.
  - destruct (topic_notices (demoWorld respNoContent) (demoState respNoContent)
                "room.x" []) as (Hnew & _).
    destruct (Hnew (firstSealed respNoContent) respNoContent) as (H2xx & _).
    + split; reflexivity.
    + apply H2xx. unfold is2xx. simpl. lia.
  - destruct (topic_notices (demoWorld resp401) (demoState resp401)
                "" ["room.a"; "room.b"]) as (_ & Hclean & _).
    destruct (Hclean (firstSealed resp401) resp401) as (_ & Hbody & _).
    + split; reflexivity.
    + apply Hbody; [unfold is2xx; simpl; lia | reflexivity].
Defined.

Lemma SendAggregatedData_outcome_witness :
  SendAggregatedData (demoWorld respNoContent) statsForm (demoState respNoContent)
  = (None,
     {| backend := healthy (backend (demoState respNoContent)) bPathAggStats (demoClock 2);
        tick := 3;
        seals := [statsForm];
        posts := [(postStatisticsURL (backend (demoState respNoContent)),
                   firstSealed respNoContent)] |})
  /\ SendAggregatedData (demoWorld resp401) statsForm (demoState resp401)
     = (Some (httpError 401),
        sent (demoState resp401) (postStatisticsURL (backend (demoState resp401)))
             statsForm (firstSealed resp401)).
Proof.
  split.
  - destruct (SendAggregatedData_outcome (demoWorld respNoContent)
                (demoState respNoContent) statsForm (firstSealed respNoContent)
                respNoContent) as (H2xx & _).
    + split; reflexivity.
    + destruct H2xx as (Hrun & _); [unfold is2xx; simpl; lia | exact Hrun].
  - destruct (SendAggregatedData_outcome (demoWorld resp401)
                (demoState resp401) statsForm (firstSealed resp401)
                resp401) as (_ & Hnot).
    + split; reflexivity.
    + apply Hnot. unfold is2xx. simpl. lia.
Defined.

(** ** Where the specification and the program part *)

(** C1, as stated, fails for the hint [FFZ-Cache: 0]: the call succeeds
    on a 2xx answer whose header parses to [0], but the body is stored
    with the default expiration of the cache, 60 seconds after the clock
    reading of the store, and not with that reading plus zero seconds;
    no clock reading taken during the call is the expiry, and the entry
    is still served 30 seconds later. *)
Lemma SendRemoteCommand_zero_hint_counterexample :
  answered (demoWorld respZeroHint) (demoState respZeroHint)
           (commandURL (demoState respZeroHint) "echo") (commandForm "x" demoAuth)
           (firstSealed respZeroHint) respZeroHint
  /\ is2xx respZeroHint
  /\ ParseInt (Header_Get (Header respZeroHint) "FFZ-Cache") = inr 0
  /\ fst zeroHintRun = ("hello", None)
  /\ cachedWithExpiry (backend (snd zeroHintRun)) (getCacheKey "echo" "x") "hello"
                      (demoClock 2 + 60 * Second)
  /\ (forall t : nat, (t < tick (snd zeroHintRun))%nat ->
        ~ cachedWithExpiry (backend (snd zeroHintRun)) (getCacheKey "echo" "x") "hello"
                           (demoClock t + 0 * Second))
  /\ holds (responseCache (backend (snd zeroHintRun))) (demoClock 2 + 30 * Second)
           (getCacheKey "echo" "x") "hello".
Proof.
  split; [split; reflexivity |]. split; [unfold is2xx; simpl; lia |].
  split; [reflexivity |]. split; [reflexivity |]. split; [reflexivity |]. split.
  - intros t Ht H. unfold cachedWithExpiry in H.
    assert (Htick : tick (snd zeroHintRun) = 4%nat) by reflexivity.
    rewrite Htick in Ht.
    assert (Hreal : items (responseCache (backend (snd zeroHintRun)))
                      !! getCacheKey "echo" "x"
                    = Some {| Object := "hello"; Expiration := 1062000000000 |})
      by reflexivity.
    rewrite Hreal in H. injection H as H. unfold demoClock, Second in H.
    lia.
  - exists {| Object := "hello"; Expiration := 1062000000000 |}.
    split; [reflexivity |]. split; [reflexivity |].
    right. vm_compute. discriminate.
Qed.

(** C5, as stated, fails for a [Content-Type] with white space around the
    media type and no parameter: stripped and trimmed the header is
    exactly [application/json] and the body is valid JSON, but the
    program compares the header untrimmed and returns the generic HTTP
    error, not an [ErrForwardedFromBackend]. *)
Lemma SendRemoteCommand_untrimmed_type_counterexample :
  answered (demoWorld respSpacedJSON) (demoState respSpacedJSON)
           (commandURL (demoState respSpacedJSON) "echo") (commandForm "x" demoAuth)
           (firstSealed respSpacedJSON) respSpacedJSON
  /\ ~ is2xx respSpacedJSON
  /\ StatusCode respSpacedJSON <> 401
  /\ ioutil_ReadAll (Body respSpacedJSON) = inr "null"
  /\ trimmedMediaType (Header_Get (Header respSpacedJSON) "Content-Type")
     = "application/json"
  /\ w_json_Unmarshal (demoWorld respSpacedJSON) "null" = inr JNull
  /\ fst spacedJSONRun = ("", Some (httpError 500))
  /\ fst spacedJSONRun <> ("", Some (ErrForwardedFromBackend JNull)).
Proof.
  split; [split; reflexivity |]. split; [unfold is2xx; simpl; lia |].
  split; [simpl; lia |]. split; [reflexivity |]. split; [reflexivity |].
  split; [reflexivity |]. split; [reflexivity |].
  assert (Hreal : fst spacedJSONRun = ("", Some (httpError 500))) by reflexivity.
  rewrite Hreal. unfold httpError. discriminate.
Qed.

(** C8, as stated, fails when closing the response body fails: the
    answer is 2xx and the [/stats] bucket is set, but the call returns
    the error of [Close] and not nil. *)
Lemma SendAggregatedData_close_error_counterexample :
  answered (demoWorld respCloseFails) (demoState respCloseFails)
           (postStatisticsURL (backend (demoState respCloseFails)))
           statsForm (firstSealed respCloseFails) respCloseFails
  /\ is2xx respCloseFails
  /\ fst closeFailsRun = Some (foreignError closeError)
  /\ fst closeFailsRun <> None
  /\ lastSuccess (backend (snd closeFailsRun)) !! bPathAggStats = Some (demoClock 2).
Proof.
  split; [split; reflexivity |]. split; [unfold is2xx; simpl; lia |].
  split; [reflexivity |]. split; [| reflexivity].
  assert (Hreal : fst closeFailsRun = Some (foreignError closeError)) by reflexivity.
  rewrite Hreal. discriminate.
Qed.

(** C9, as stated, fails on the program: when reading the body fails,
    the error returned is the read error itself; it is not an error made
    by [fmt.Errorf] around it, nor any other wrapper of the program. *)
Lemma SendRemoteCommand_raw_read_error_counterexample :
  answered (demoWorld respUnreadable) (demoState respUnreadable)
           (commandURL (demoState respUnreadable) "echo") (commandForm "x" demoAuth)
           (firstSealed respUnreadable) respUnreadable
  /\ ioutil_ReadAll (Body respUnreadable) = inl readError
  /\ snd (fst unreadableRun) = Some (foreignError readError)
  /\ ~ (exists format args, snd (fst unreadableRun) = Some (Errorf format args)).
Proof.
  split; [split; reflexivity |]. split; [reflexivity |]. split; [reflexivity |].
  intros (format & args & H).
  assert (Hreal : snd (fst unreadableRun) = Some (foreignError readError))
    by reflexivity.
  rewrite Hreal in H. discriminate.
Qed.

(** * Further properties *)

Ltac outcome_leaf :=
  split; [reflexivity |];
  split; [first [left; reflexivity | right; eexists; reflexivity] |];
  first
    [ left; eexists; split; reflexivity
    | right; eexists; split; [reflexivity |]; split; [reflexivity |];
      first [left; reflexivity | right; eexists; reflexivity] ].

Ltac failed_leaf :=
  split; [reflexivity |];
  split; [first [left; reflexivity | right; eexists; reflexivity] |];
  left; split; [reflexivity | discriminate].

Section Outcomes.

Variable w : World.

(** Every run of [SendRemoteCommand] seals the form of the command
    once, calls [PostForm] at most once, and either fails with an empty
    response on an untouched client or succeeds as [commandSucceeded]
    describes. *)
Lemma SendRemoteCommand_outcome (s : State) (remoteCommand data : string)
    (auth : AuthInfo) :
  let run := SendRemoteCommand w remoteCommand data auth s in
  seals (snd run) = seals s ++ [commandForm data auth]
  /\ atMostOnePost s (snd run) (commandURL s remoteCommand)
  /\ ((exists err, fst run = ("", Some err) /\ backend (snd run) = backend s)
      \/ (exists body, fst run = (body, None)
            /\ commandSucceeded (backend s) (backend (snd run)) remoteCommand
                 (getCacheKey remoteCommand data) body
                 (w_Now w (Nat.pred (tick (snd run)))))).
Proof.
  intros run. subst run.
  unfold SendRemoteCommand, atMostOnePost, commandSucceeded, commandURL, commandForm.
  call_steps.
  destruct (w_Seal w _ _ _) as [e | sealedForm]; call_steps; [outcome_leaf |].
  destruct (w_PostForm w _ _ _) as [e | resp]; call_steps; [outcome_leaf |].
  destruct (body_ReadAll (Body resp)) as [e | body]; call_steps; [outcome_leaf |].
  destruct (StatusCode resp =? 401); call_steps; [outcome_leaf |].
  destruct ((StatusCode resp <? 200) || (299 <? StatusCode resp)); call_steps.
  - destruct (String.eqb _ "application/json"); call_steps; [| outcome_leaf].
    destruct (w_json_Unmarshal w body); call_steps; outcome_leaf.
  - destruct (negb (String.eqb _ "")); call_steps; [| outcome_leaf].
    destruct (ParseInt _) as [e | n]; call_steps; [outcome_leaf |].
    unfold responseCache_Set. call_steps.
    destruct (_ =? DefaultExpiration); destruct (0 <? _); call_steps; outcome_leaf.
Qed.


(** X1: a run of [SendRemoteCommand] that returns an error returns the
    empty response and leaves the client as it was, cache and health
    buckets included, whatever made it fail. *)
Theorem SendRemoteCommand_error_leaves_client (s : State)
    (remoteCommand data : string) (auth : AuthInfo) :
  let run := SendRemoteCommand w remoteCommand data auth s in
  snd (fst run) <> None ->
  fst (fst run) = "" /\ backend (snd run) = backend s.
Proof.
  cbv zeta. intros Herr.
  pose proof (SendRemoteCommand_outcome s remoteCommand data auth) as H.
  cbv zeta in H. destruct H as (_ & _ & [(err & Hrun & Hb) | (body & Hrun & _)]).
  - rewrite Hrun. auto.
  - rewrite Hrun in Herr. contradiction.
Qed.

(** X2: every run of [SendRemoteCommand] hands the form of the command
    to [Seal] exactly once and calls [HTTPClient.PostForm] at most once,
    with the URL [baseURL/cmd/remoteCommand]: the program never repeats
    the call and never asks the HTTP client for another URL.  (Requests
    the HTTP library sends on its own inside the call, when it follows
    a redirect, are not counted.) *)
Theorem SendRemoteCommand_one_attempt (s : State)
    (remoteCommand data : string) (auth : AuthInfo) :
  let s' := snd (SendRemoteCommand w remoteCommand data auth s) in
  seals s' = seals s ++ [commandForm data auth]
  /\ atMostOnePost s s' (baseURL (backend s) +:+ "/cmd/" +:+ remoteCommand)
  /\ (length (posts s') <= S (length (posts s)))%nat.
Proof.
  cbv zeta.
  pose proof (SendRemoteCommand_outcome s remoteCommand data auth) as H.
  cbv zeta in H. destruct H as (Hseals & Hposts & _).
  split; [exact Hseals |]. split; [exact Hposts |].
  destruct Hposts as [-> | (sf & ->)]; [lia |].
  rewrite length_app. cbn. lia.
Qed.

(** X3: a run of [SendRemoteCommand] that returns a nil error has
    recorded the success: the bucket of the command and the generic
    [/cmd/] bucket both hold the last clock reading of the run. *)
Theorem SendRemoteCommand_success_recorded (s : State)
    (remoteCommand data : string) (auth : AuthInfo) :
  let run := SendRemoteCommand w remoteCommand data auth s in
  snd (fst run) = None ->
  let t := w_Now w (Nat.pred (tick (snd run))) in
  lastSuccess (backend (snd run)) !! ("/cmd/" +:+ remoteCommand) = Some t
  /\ lastSuccess (backend (snd run)) !! bPathOtherCommand = Some t.
Proof.
  cbv zeta. intros Hnil.
  pose proof (SendRemoteCommand_outcome s remoteCommand data auth) as H.
  cbv zeta in H. destruct H as (_ & _ & [(err & Hrun & _) | (body & _ & Hls & _)]).
  - rewrite Hrun in Hnil. discriminate.
  - rewrite Hls. split; [apply lookup_insert_eq |].
    destruct (decide ("/cmd/" +:+ remoteCommand = bPathOtherCommand)) as [-> | Hne].
    + apply lookup_insert_eq.
    + rewrite lookup_insert_ne by exact Hne. apply lookup_insert_eq.
Qed.

(** X4: [SendRemoteCommand] touches nothing but its own entries: every
    health bucket other than [/cmd/] and [/cmd/remoteCommand], in
    particular [/stats], [/topics] and [/startup], and every cache entry
    under another key than the one of (command, data), are after the run
    what they were before. *)
Theorem SendRemoteCommand_frame (s : State)
    (remoteCommand data : string) (auth : AuthInfo) :
  let b' := backend (snd (SendRemoteCommand w remoteCommand data auth s)) in
  (forall bucket, bucket <> bPathOtherCommand ->
     bucket <> "/cmd/" +:+ remoteCommand ->
     lastSuccess b' !! bucket = lastSuccess (backend s) !! bucket)
  /\ lastSuccess b' !! bPathAggStats = lastSuccess (backend s) !! bPathAggStats
  /\ lastSuccess b' !! bPathAddTopic = lastSuccess (backend s) !! bPathAddTopic
  /\ lastSuccess b' !! bPathAnnounceStartup
     = lastSuccess (backend s) !! bPathAnnounceStartup
  /\ (forall key, key <> getCacheKey remoteCommand data ->
        items (responseCache b') !! key = items (responseCache (backend s)) !! key).
Proof.
  pose proof (SendRemoteCommand_outcome s remoteCommand data auth) as H.
  cbv zeta in H. destruct H as (_ & _ & H). intros b'. fold b' in H.
  assert (Hbuckets : forall bucket, bucket <> bPathOtherCommand ->
            bucket <> "/cmd/" +:+ remoteCommand ->
            lastSuccess b' !! bucket = lastSuccess (backend s) !! bucket).
  { intros bucket H1 H2.
    destruct H as [(err & _ & Hb) | (body & _ & Hls & _)].
    - now rewrite Hb.
    - rewrite Hls. rewrite !lookup_insert_ne by congruence. reflexivity. }
  split; [exact Hbuckets |].
  split; [apply Hbuckets; discriminate |].
  split; [apply Hbuckets; discriminate |].
  split; [apply Hbuckets; discriminate |].
  intros key Hkey.
  destruct H as [(err & _ & Hb) | (body & _ & _ & [Hit | (e & Hit)])].
  - now rewrite Hb.
  - now rewrite Hit.
  - rewrite Hit. now apply lookup_insert_ne.
Qed.

(** X5: a 2xx answer without an [FFZ-Cache] header (or with an empty
    one) is not cached: the cache is left as it was, both buckets of the
    command are set to the clock reading, and the body is returned with
    a nil error. *)
Theorem SendRemoteCommand_2xx_no_hint (s : State)
    (remoteCommand data : string) (auth : AuthInfo) (sealedForm : url_Values)
    (resp : Response) (body : string) :
  answered w s (commandURL s remoteCommand) (commandForm data auth) sealedForm resp ->
  ioutil_ReadAll (Body resp) = inr body ->
  is2xx resp ->
  Header_Get (Header resp) "FFZ-Cache" = "" ->
  let t := w_Now w (S (S (tick s))) in
  SendRemoteCommand w remoteCommand data auth s
  = ((body, None),
     after (sent s (commandURL s remoteCommand) (commandForm data auth) sealedForm)
           (with_lastSuccess
              (<["/cmd/" +:+ remoteCommand := t]>
                 (<[bPathOtherCommand := t]> (lastSuccess (backend s))))
              (backend s))).
Proof.
  intros Hans Hread H2xx Hnone t.
  unfold SendRemoteCommand, commandURL, commandForm in *.
  answer_with Hans. unfold ioutil_ReadAll in Hread. rewrite Hread.
  rewrite (test_not_401 _ H2xx), (test_2xx _ H2xx), Hnone. reflexivity.
Qed.


(** A positive hint without overflow, in full. *)
Lemma SendRemoteCommand_positive_hint (s : State)
    (remoteCommand data : string) (auth : AuthInfo) (sealedForm : url_Values)
    (resp : Response) (body : string) (n : Z) :
  answered w s (commandURL s remoteCommand) (commandForm data auth) sealedForm resp ->
  ioutil_ReadAll (Body resp) = inr body ->
  is2xx resp ->
  ParseInt (Header_Get (Header resp) "FFZ-Cache") = inr n ->
  0 < n -> 0 <= w_Now w (S (S (tick s))) ->
  w_Now w (S (S (tick s))) + n * Second <= MaxInt64 ->
  SendRemoteCommand w remoteCommand data auth s
  = ((body, None),
     {| backend := cachedAndHealthy (backend s) remoteCommand data body
                     (w_Now w (S (S (tick s))) + n * Second)
                     (w_Now w (S (S (S (tick s)))));
        tick := S (S (S (S (tick s))));
        seals := seals s ++ [commandForm data auth];
        posts := posts s ++ [(commandURL s remoteCommand, sealedForm)] |}).
Proof.
  intros Hans Hread H2xx Hparse Hpos Hnow Hfit.
  unfold SendRemoteCommand, commandURL, commandForm in *.
  answer_with Hans. unfold ioutil_ReadAll in Hread. rewrite Hread.
  rewrite (test_not_401 _ H2xx), (test_2xx _ H2xx), (hint_present _ _ Hparse), Hparse.
  unfold responseCache_Set. call_steps.
  assert (HD : wrap64 (n * Second) = n * Second).
  { apply wrap64_small. unfold MinInt64, MaxInt64, Second in *. lia. }
  rewrite HD.
  assert (H0 : (n * Second =? DefaultExpiration) = false).
  { apply Z.eqb_neq. unfold DefaultExpiration, Second. lia. }
  assert (H1 : (0 <? n * Second) = true).
  { apply Z.ltb_lt. unfold Second. lia. }
  rewrite H0, H1. call_steps.
  rewrite wrap64_small by (unfold MinInt64, MaxInt64, Second in *; lia).
  reflexivity.
Qed.

(** X6: the response stored by a successful remote command with a
    positive hint [n] is served by [SendRemoteCommandCached], to any
    caller and with nothing sealed or sent, in every later state with
    the same cache whose clock reading is at most [n] seconds after the
    store; once the clock reading is later than that, the cached call is
    the plain call again. *)
Theorem cached_response_round_trip (s : State)
    (remoteCommand data : string) (auth : AuthInfo) (sealedForm : url_Values)
    (resp : Response) (body : string) (n : Z) :
  answered w s (commandURL s remoteCommand) (commandForm data auth) sealedForm resp ->
  ioutil_ReadAll (Body resp) = inr body ->
  is2xx resp ->
  ParseInt (Header_Get (Header resp) "FFZ-Cache") = inr n ->
  0 < n -> 0 <= w_Now w (S (S (tick s))) ->
  w_Now w (S (S (tick s))) + n * Second <= MaxInt64 ->
  let s' := snd (SendRemoteCommand w remoteCommand data auth s) in
  let expiry := w_Now w (S (S (tick s))) + n * Second in
  forall (later : State) (caller : AuthInfo),
    responseCache (backend later) = responseCache (backend s') ->
    (w_Now w (tick later) <= expiry ->
       SendRemoteCommandCached w remoteCommand data caller later
       = ((body, None), next later))
    /\ (expiry < w_Now w (tick later) ->
        SendRemoteCommandCached w remoteCommand data caller later
        = SendRemoteCommand w remoteCommand data caller (next later)).
Proof.
  intros Hans Hread H2xx Hparse Hpos Hnow Hfit s' expiry later caller Hcache.
  assert (Hitem : items (responseCache (backend later)) !! getCacheKey remoteCommand data
                  = Some {| Object := body; Expiration := expiry |}).
  { rewrite Hcache. subst s'.
    rewrite (SendRemoteCommand_positive_hint s remoteCommand data auth sealedForm
               resp body n Hans Hread H2xx Hparse Hpos Hnow Hfit).
    cbn. apply lookup_insert_eq. }
  assert (Hexp : (0 <? expiry) = true).
  { apply Z.ltb_lt. subst expiry. unfold Second. lia. }
  unfold SendRemoteCommandCached, responseCache_Get. call_steps.
  rewrite Hitem. cbn [Expiration Object]. rewrite Hexp. call_steps.
  split; intros Ht.
  - assert ((expiry <? w_Now w (tick later)) = false) as -> by (apply Z.ltb_ge; lia).
    reflexivity.
  - assert ((expiry <? w_Now w (tick later)) = true) as -> by (apply Z.ltb_lt; lia).
    reflexivity.
Qed.

(** Every run of [SendAggregatedData]. *)
Lemma SendAggregatedData_all (s : State) (form : url_Values) :
  let run := SendAggregatedData w form s in
  seals (snd run) = seals s ++ [form]
  /\ atMostOnePost s (snd run) (postStatisticsURL (backend s))
  /\ (backend (snd run) = backend s /\ fst run <> None
      \/ backend (snd run)
         = healthy (backend s) bPathAggStats (w_Now w (S (S (tick s))))).
Proof.
  cbv zeta. unfold SendAggregatedData, atMostOnePost. call_steps.
  destruct (w_Seal w _ _ _) as [e | sealedForm]; call_steps; [failed_leaf |].
  destruct (w_PostForm w _ _ _) as [e | resp]; call_steps; [failed_leaf |].
  destruct ((StatusCode resp <? 200) || (299 <? StatusCode resp)); call_steps;
    [failed_leaf |].
  split; [reflexivity |]. split; [right; eexists; reflexivity |].
  right. reflexivity.
Qed.

(** X7: [SendAggregatedData] seals the caller's form as it is, exactly
    once, calls [HTTPClient.PostForm] at most once, with the URL of the
    statistics endpoint, never touches the response cache, and changes
    no health bucket other than [/stats].  (Requests the HTTP library
    sends on its own inside the call are not counted.) *)
Theorem SendAggregatedData_frame (s : State) (form : url_Values) :
  let s' := snd (SendAggregatedData w form s) in
  seals s' = seals s ++ [form]
  /\ atMostOnePost s s' (postStatisticsURL (backend s))
  /\ responseCache (backend s') = responseCache (backend s)
  /\ (forall bucket, bucket <> bPathAggStats ->
        lastSuccess (backend s') !! bucket = lastSuccess (backend s) !! bucket).
Proof.
  pose proof (SendAggregatedData_all s form) as H. cbv zeta in *.
  destruct H as (Hseals & Hposts & Hb).
  split; [exact Hseals |]. split; [exact Hposts |].
  destruct Hb as [[-> _] | ->]; split; try reflexivity.
  intros bucket Hne. cbn. now apply lookup_insert_ne.
Qed.

(** X8: when [SendAggregatedData] returns nil, the success has been
    recorded: the [/stats] bucket holds the clock reading taken after
    the answer. *)
Theorem SendAggregatedData_success_recorded (s : State) (form : url_Values) :
  let run := SendAggregatedData w form s in
  fst run = None ->
  lastSuccess (backend (snd run)) !! bPathAggStats = Some (w_Now w (S (S (tick s)))).
Proof.
  pose proof (SendAggregatedData_all s form) as H. cbv zeta in *.
  destruct H as (_ & _ & [[_ Herr] | ->]); intros Hnil.
  - contradiction.
  - cbn. apply lookup_insert_eq.
Qed.

(** Every run of [sendTopicNotice]. *)
Lemma sendTopicNotice_all (s : State) (topic : string) (added : bool) :
  let run := sendTopicNotice w topic added s in
  seals (snd run) = seals s ++ [topicForm topic added]
  /\ atMostOnePost s (snd run) (addTopicURL (backend s))
  /\ (backend (snd run) = backend s /\ fst run <> None
      \/ backend (snd run)
         = healthy (backend s) bPathAddTopic (w_Now w (S (S (tick s))))
         /\ fst run = None).
Proof.
  cbv zeta. unfold sendTopicNotice, atMostOnePost, topicForm. call_steps.
  destruct (w_Seal w _ _ _) as [e | sealedForm]; call_steps; [failed_leaf |].
  destruct (w_PostForm w _ _ _) as [e | resp]; call_steps; [failed_leaf |].
  destruct ((StatusCode resp <? 200) || (299 <? StatusCode resp)); call_steps.
  - destruct (body_ReadAll (Body resp)); call_steps; failed_leaf.
  - split; [reflexivity |]. split; [right; eexists; reflexivity |].
    right. split; reflexivity.
Qed.

(** X9: a topic notice, new topic or cleanup, returns nil exactly when
    it has set the [/topics] bucket to the clock reading taken after the
    answer; when it returns an error the client is as it was.  In both
    cases the response cache and every other bucket are untouched, the
    form is sealed once and [HTTPClient.PostForm] is called at most
    once, with the URL of the topics endpoint.  (Requests the HTTP
    library sends on its own inside the call are not counted.) *)
Theorem topic_notice_all_or_nothing (s : State) (topic : string)
    (topics : list string) :
  topicNoticeEffect w s (SendNewTopicNotice w topic s) topic true
  /\ topicNoticeEffect w s (SendCleanupTopicsNotice w topics s)
                       (strings_Join topics ",") false.
Proof.
  assert (Hall : forall channels added,
            topicNoticeEffect w s (sendTopicNotice w channels added s) channels added).
  { intros channels added. unfold topicNoticeEffect.
    pose proof (sendTopicNotice_all s channels added) as H. cbv zeta in *.
    destruct H as (Hseals & Hposts & Hb).
    split; [exact Hseals |]. split; [exact Hposts |].
    destruct Hb as [[Hb Herr] | [Hb Hnil]]; rewrite Hb.
    - repeat split; try reflexivity. intros Hnil. contradiction.
    - split; [reflexivity |]. split.
      + intros bucket Hne. cbn. now apply lookup_insert_ne.
      + split; [intros Herr; contradiction |].
        intros _. cbn. apply lookup_insert_eq. }
  split.
  - apply (Hall topic true).
  - apply (Hall (strings_Join topics ",") false).
Qed.

End Outcomes.

Section Sequences.

Variable w : World.

Lemma grows_refl (s : State) : grows 0 s s.
Proof.
  split; [apply sameSetup_refl |]. split; [| auto].
  exists []. split; [now rewrite app_nil_r | reflexivity].
Qed.

Lemma grows_trans (n m : nat) (s1 s2 s3 : State) :
  grows n s1 s2 -> grows m s2 s3 -> grows (n + m) s1 s3.
Proof.
  intros (Hs1 & (new1 & Hp1 & Hl1) & Hb1) (Hs2 & (new2 & Hp2 & Hl2) & Hb2).
  split; [eapply sameSetup_trans; eassumption |]. split.
  - exists (new1 ++ new2). rewrite Hp2, Hp1, <- app_assoc. split; [reflexivity |].
    rewrite length_app. lia.
  - auto.
Qed.

Lemma grows_weaken (n m : nat) (s s' : State) :
  (n <= m)%nat -> grows n s s' -> grows m s s'.
Proof.
  intros Hle (Hs & (new & Hp & Hl) & Hb).
  split; [exact Hs |]. split; [| exact Hb]. exists new. split; [exact Hp | lia].
Qed.

Lemma grows_next (s : State) : grows 0 s (next s).
Proof.
  split; [apply sameSetup_refl |]. split; [| auto].
  exists []. split; [cbn; now rewrite app_nil_r | reflexivity].
Qed.

Lemma atMostOnePost_new (s s' : State) (url : string) :
  atMostOnePost s s' url ->
  exists new, posts s' = posts s ++ new /\ (length new <= 1)%nat.
Proof.
  intros [-> | (sf & ->)].
  - exists []. split; [now rewrite app_nil_r | cbn; lia].
  - eexists. split; [reflexivity | cbn; lia].
Qed.

Lemma is_Some_insert_keep (m : gmap string Time) (k bucket : string) (t : Time) :
  is_Some (m !! bucket) -> is_Some (<[k := t]> m !! bucket).
Proof.
  intros H. destruct (decide (k = bucket)) as [-> | Hne].
  - rewrite lookup_insert_eq. eauto.
  - now rewrite lookup_insert_ne.
Qed.

Lemma SendRemoteCommand_grows (remoteCommand data : string) (auth : AuthInfo)
    (s : State) :
  grows 1 s (snd (SendRemoteCommand w remoteCommand data auth s)).
Proof.
  pose proof (SendRemoteCommand_outcome w s remoteCommand data auth) as H.
  cbv zeta in H. destruct H as (_ & Hposts & Hb).
  split; [apply SendRemoteCommand_sameSetup |].
  split; [eapply atMostOnePost_new; eassumption |].
  intros bucket Hin.
  destruct Hb as [(err & _ & ->) | (body & _ & -> & _)]; [exact Hin |].
  now do 2 apply is_Some_insert_keep.
Qed.

Lemma responseCache_Get_state (k : string) (s : State) :
  snd (responseCache_Get w k s) = s \/ snd (responseCache_Get w k s) = next s.
Proof.
  unfold responseCache_Get. call_steps.
  destruct (items (responseCache (backend s)) !! k) as [it |]; [| now left].
  destruct (0 <? Expiration it); call_steps; [| now left].
  destruct (Expiration it <? w_Now w (tick s)); now right.
Qed.

Lemma SendRemoteCommandCached_grows (remoteCommand data : string)
    (auth : AuthInfo) (s : State) :
  grows 1 s (snd (SendRemoteCommandCached w remoteCommand data auth s)).
Proof.
  unfold SendRemoteCommandCached, bind.
  pose proof (responseCache_Get_state (getCacheKey remoteCommand data) s) as Hs1.
  destruct (responseCache_Get w (getCacheKey remoteCommand data) s) as [[v |] s1];
    cbv beta iota.
  - cbn in *. apply (grows_weaken 0); [lia |].
    destruct Hs1 as [-> | ->]; [apply grows_refl | apply grows_next].
  - cbn [snd] in Hs1. destruct Hs1 as [-> | ->].
    + apply SendRemoteCommand_grows.
    + apply (grows_trans 0 1 _ (next s)); [apply grows_next |].
      apply SendRemoteCommand_grows.
Qed.

Lemma SendAggregatedData_grows (form : url_Values) (s : State) :
  grows 1 s (snd (SendAggregatedData w form s)).
Proof.
  pose proof (SendAggregatedData_all w s form) as H.
  cbv zeta in H. destruct H as (_ & Hposts & Hb).
  split; [apply SendAggregatedData_sameSetup |].
  split; [eapply atMostOnePost_new; eassumption |].
  intros bucket Hin. destruct Hb as [[-> _] | ->]; [exact Hin |].
  cbn. now apply is_Some_insert_keep.
Qed.

Lemma sendTopicNotice_grows (topic : string) (added : bool) (s : State) :
  grows 1 s (snd (sendTopicNotice w topic added s)).
Proof.
  pose proof (sendTopicNotice_all w s topic added) as H.
  cbv zeta in H. destruct H as (_ & Hposts & Hb).
  split; [apply sendTopicNotice_sameSetup |].
  split; [eapply atMostOnePost_new; eassumption |].
  intros bucket Hin. destruct Hb as [[-> _] | [-> _]]; [exact Hin |].
  cbn. now apply is_Some_insert_keep.
Qed.

Lemma perform_grows (c : Call) (s : State) : grows 1 s (perform w c s).
Proof.
  destruct c; unfold perform, SendNewTopicNotice, SendCleanupTopicsNotice.
  - apply SendRemoteCommand_grows.
  - apply SendRemoteCommandCached_grows.
  - apply SendAggregatedData_grows.
  - apply sendTopicNotice_grows.
  - apply sendTopicNotice_grows.
Qed.

Lemma performAll_grows (cs : list Call) (s : State) :
  grows (length cs) s (performAll w cs s).
Proof.
  revert s. induction cs as [| c rest IH]; intros s; cbn [performAll length].
  - apply grows_refl.
  - apply (grows_trans 1 (length rest) _ (perform w c s)).
    + apply perform_grows.
    + apply IH.
Qed.

(** X10: whatever sequence of calls is made on the client and whatever
    the outside answers, the program calls [HTTPClient.PostForm] at most
    once per call of an operation, after the calls it had made before:
    the program itself never repeats a post.  (Requests the HTTP library
    sends on its own inside one [PostForm], when it follows a redirect,
    are not counted.) *)
Theorem calls_post_at_most_once_each (cs : list Call) (s : State) :
  exists new, posts (performAll w cs s) = posts s ++ new
              /\ (length new <= length cs)%nat.
Proof. apply (performAll_grows cs s). Qed.

(** X11: whatever sequence of calls is made on the client built by
    [setupBackend], its endpoints, sealing data and timeout stay those of
    the configuration, the default expiration of its cache stays 60
    seconds, and the four buckets of the setup stay present. *)
Theorem calls_keep_the_setup (config : ConfigFile) (cs : list Call) (s : State) :
  backend s = setupBackend w config ->
  let b' := backend (performAll w cs s) in
  baseURL b' = cfg_BackendURL config
  /\ postStatisticsURL b' = cfg_BackendURL config +:+ "/stats"
  /\ addTopicURL b' = cfg_BackendURL config +:+ "/topics"
  /\ announceStartupURL b' = cfg_BackendURL config +:+ "/startup"
  /\ secureForm b' = secureForm (setupBackend w config)
  /\ HTTPClient_Timeout b' = 60 * Second
  /\ defaultExpiration (responseCache b') = 60 * Second
  /\ (forall bucket,
        In bucket [bPathAnnounceStartup; bPathAddTopic; bPathAggStats; bPathOtherCommand] ->
        is_Some (lastSuccess b' !! bucket)).
Proof.
  intros Hb b'.
  destruct (performAll_grows cs s) as ((Ht & Hu & Hps & Hat & Has & Hsf & Hde) & _ & Hkeep).
  fold b' in Ht, Hu, Hps, Hat, Has, Hsf, Hde, Hkeep. rewrite Hb in *.
  repeat split; try assumption.
  intros bucket Hin. apply Hkeep. cbn in Hin.
  destruct Hin as [<- | [<- | [<- | [<- | []]]]]; eexists; reflexivity.
Qed.

End Sequences.

(** ** Keys, media types and topic lists *)

Lemma IndexRune_nonneg_or_none (s : string) (c : ascii) :
  strings_IndexRune s c = -1 \/ 0 <= strings_IndexRune s c.
Proof.
  induction s as [| a rest IH]; cbn [strings_IndexRune]; [now left |].
  destruct (Ascii.eqb a c); [right; lia |].
  destruct (strings_IndexRune rest c =? -1) eqn:E; [now left |].
  apply Z.eqb_neq in E. right. lia.
Qed.

Lemma IndexRune_cons_none (a c : ascii) (rest : string) :
  strings_IndexRune (String a rest) c = -1 ->
  a <> c /\ strings_IndexRune rest c = -1.
Proof.
  cbn [strings_IndexRune].
  destruct (Ascii.eqb_spec a c) as [-> | Hne]; [discriminate |].
  destruct (IndexRune_nonneg_or_none rest c) as [Hnone | Hpos].
  - auto.
  - assert ((strings_IndexRune rest c =? -1) = false) as -> by (apply Z.eqb_neq; lia).
    lia.
Qed.

(** The first separator of [a ++ c ++ rest] when [a] has none. *)
Lemma IndexRune_app (a rest : string) (c : ascii) :
  strings_IndexRune a c = -1 ->
  strings_IndexRune (a +:+ String c rest) c = Z.of_nat (String.length a).
Proof.
  induction a as [| x a IH]; intros Hnone.
  - change ("" +:+ String c rest) with (String c rest).
    cbn [strings_IndexRune]. now rewrite Ascii.eqb_refl.
  - apply IndexRune_cons_none in Hnone. destruct Hnone as [Hne Hrest].
    change (String x a +:+ String c rest) with (String x (a +:+ String c rest)).
    cbn [strings_IndexRune]. apply Ascii.eqb_neq in Hne. rewrite Hne, (IH Hrest).
    assert ((Z.of_nat (String.length a) =? -1) = false) as ->
      by (apply Z.eqb_neq; lia).
    change (String.length (String x a)) with (S (String.length a)). lia.
Qed.

Lemma substring_prefix (a rest : string) :
  String.substring 0 (String.length a) (a +:+ rest) = a.
Proof.
  induction a as [| x a IH].
  - change ("" +:+ rest) with rest. now destruct rest.
  - change (String x a +:+ rest) with (String x (a +:+ rest)).
    change (String.length (String x a)) with (S (String.length a)).
    cbn [String.substring]. now rewrite IH.
Qed.

Lemma string_app_assoc (a b c : string) : (a +:+ b) +:+ c = a +:+ (b +:+ c).
Proof.
  induction a as [| x a IH]; [reflexivity |].
  change (String x ((a +:+ b) +:+ c) = String x (a +:+ (b +:+ c))).
  now rewrite IH.
Qed.

Lemma mediaType_ignores_parameters (a parameters : string) :
  strings_IndexRune a ";" = -1 ->
  mediaType (a +:+ ";" +:+ parameters) = strings_TrimSpace a.
Proof.
  intros Hnone. unfold mediaType.
  change (";" +:+ parameters) with (String ";" parameters).
  rewrite (IndexRune_app a parameters ";" Hnone).
  assert ((Z.of_nat (String.length a) =? -1) = false) as -> by (apply Z.eqb_neq; lia).
  cbn [negb]. unfold slice_to. rewrite Nat2Z.id. now rewrite substring_prefix.
Qed.

Lemma append_separator_inj (a b r r' : string) (c : ascii) :
  strings_IndexRune a c = -1 -> strings_IndexRune b c = -1 ->
  a +:+ String c r = b +:+ String c r' -> a = b /\ r = r'.
Proof.
  revert b. induction a as [| x a IH]; intros b Ha Hb Heq.
  - destruct b as [| y b]; unfold String.append in Heq; fold String.append in Heq.
    + injection Heq as ->. auto.
    + injection Heq as <- _. apply IndexRune_cons_none in Hb. now destruct Hb.
  - destruct b as [| y b]; unfold String.append in Heq; fold String.append in Heq.
    + injection Heq as -> _. apply IndexRune_cons_none in Ha. now destruct Ha.
    + injection Heq as -> Heq.
      apply IndexRune_cons_none in Ha, Hb. destruct Ha as [_ Ha], Hb as [_ Hb].
      destruct (IH b Ha Hb Heq) as [-> ->]. auto.
Qed.

Lemma no_separator_inside (a b r : string) (c : ascii) :
  strings_IndexRune a c = -1 -> a <> b +:+ String c r.
Proof.
  revert b. induction a as [| x a IH]; intros b Ha Heq.
  - destruct b; discriminate.
  - destruct b as [| y b]; unfold String.append in Heq; fold String.append in Heq.
    + injection Heq as -> _. apply IndexRune_cons_none in Ha. now destruct Ha.
    + injection Heq as _ Heq. apply IndexRune_cons_none in Ha.
      destruct Ha as [_ Ha]. exact (IH b Ha Heq).
Qed.

Section Keys.

Variable w : World.

(** X12: the key of the cache tells commands apart as long as their
    names have no slash: two (command, data) pairs with slash-free
    command names and the same key are the same pair. *)
Theorem getCacheKey_injective (c1 d1 c2 d2 : string) :
  strings_IndexRune c1 "/" = -1 ->
  strings_IndexRune c2 "/" = -1 ->
  getCacheKey c1 d1 = getCacheKey c2 d2 ->
  c1 = c2 /\ d1 = d2.
Proof.
  intros H1 H2 Hkey. unfold getCacheKey, Sprintf_s_slash_s in Hkey.
  exact (append_separator_inj c1 c2 d1 d2 "/" H1 H2 Hkey).
Qed.

(** X13: with a slash in the command name two different requests share
    a key: a response cached for the command [c/p] with data [d] is
    served, unexpired, to a cached call of the command [c] with data
    [p/d]. *)
Theorem getCacheKey_collision (s : State) (c p d v : string) (auth : AuthInfo) :
  holds (responseCache (backend s)) (w_Now w (tick s))
        (getCacheKey (c +:+ "/" +:+ p) d) v ->
  getCacheKey c (p +:+ "/" +:+ d) = getCacheKey (c +:+ "/" +:+ p) d
  /\ fst (SendRemoteCommandCached w c (p +:+ "/" +:+ d) auth s) = (v, None).
Proof.
  intros Hv.
  assert (Hkey : getCacheKey c (p +:+ "/" +:+ d) = getCacheKey (c +:+ "/" +:+ p) d).
  { unfold getCacheKey, Sprintf_s_slash_s.
    now rewrite !string_app_assoc. }
  split; [exact Hkey |].
  rewrite <- Hkey in Hv.
  destruct (responseCache_Get_hit w s _ v Hv) as (s' & Hget & _).
  unfold SendRemoteCommandCached, bind. now rewrite Hget.
Qed.

(** X14: the parameters of the [Content-Type] header play no part: a
    readable answer that is neither 2xx nor 401, whose [Content-Type] is
    [application/json] followed by [;] and anything, and whose body
    decodes as JSON, is returned as the [ErrForwardedFromBackend] of the
    decoded value. *)
Theorem SendRemoteCommand_json_error_any_parameters (s : State)
    (remoteCommand data : string) (auth : AuthInfo) (sealedForm : url_Values)
    (resp : Response) (body parameters : string) (v : JSONValue) :
  answered w s (commandURL s remoteCommand) (commandForm data auth) sealedForm resp ->
  ioutil_ReadAll (Body resp) = inr body ->
  ~ is2xx resp ->
  StatusCode resp <> 401 ->
  Header_Get (Header resp) "Content-Type" = "application/json;" +:+ parameters ->
  w_json_Unmarshal w body = inr v ->
  SendRemoteCommand w remoteCommand data auth s
  = (("", Some (ErrForwardedFromBackend v)),
     sent s (commandURL s remoteCommand) (commandForm data auth) sealedForm).
Proof.
  intros Hans Hread Hnot H401 Htype Hdec.
  assert (Hmedia : mediaType (Header_Get (Header resp) "Content-Type")
                   = "application/json").
  { rewrite Htype.
    change ("application/json;" +:+ parameters)
      with ("application/json" +:+ ";" +:+ parameters).
    now rewrite mediaType_ignores_parameters. }
  unfold mediaType in Hmedia.
  unfold SendRemoteCommand, commandURL, commandForm in *.
  answer_with Hans. unfold ioutil_ReadAll in Hread. rewrite Hread.
  apply Z.eqb_neq in H401. rewrite H401, (test_not_2xx _ Hnot).
  rewrite Hmedia. cbn [String.eqb]. rewrite !Ascii.eqb_refl.
  rewrite Hdec. reflexivity.
Qed.

(** X15: on the client just built by [setupBackend] the cache is empty,
    so a cached call is the plain call, made in the same state; the four
    buckets of the setup hold the Unix epoch and no command has a bucket
    of its own yet. *)
Theorem fresh_client (config : ConfigFile) (s : State)
    (remoteCommand data : string) (auth : AuthInfo) :
  backend s = setupBackend w config ->
  SendRemoteCommandCached w remoteCommand data auth s
  = SendRemoteCommand w remoteCommand data auth s
  /\ lastSuccess (backend s) !! bPathAnnounceStartup = Some 0
  /\ lastSuccess (backend s) !! bPathAddTopic = Some 0
  /\ lastSuccess (backend s) !! bPathAggStats = Some 0
  /\ lastSuccess (backend s) !! bPathOtherCommand = Some 0
  /\ (remoteCommand <> "" ->
      lastSuccess (backend s) !! ("/cmd/" +:+ remoteCommand) = None).
Proof.
  intros Hb. split.
  - unfold SendRemoteCommandCached, responseCache_Get. call_steps.
    rewrite Hb. cbn [setupBackend responseCache cache_New items].
    now rewrite lookup_empty.
  - rewrite Hb. cbn [setupBackend lastSuccess].
    repeat split; try reflexivity.
    intros Hne. destruct remoteCommand as [| x rest]; [contradiction |].
    rewrite !lookup_insert_ne by discriminate.
    rewrite lookup_singleton_ne by discriminate. reflexivity.
Qed.

(** X16: a cleanup notice for a non-empty list of comma-free topics
    seals a form from which the list can be told: two such lists with the
    same form are equal.  A topic with a comma breaks this: the one topic
    [a,b] and the two topics [a] and [b] give the same form. *)
Theorem cleanup_form_tells_topics (l1 l2 : list string) :
  l1 <> [] -> l2 <> [] ->
  Forall commaFree l1 -> Forall commaFree l2 ->
  (topicForm (strings_Join l1 ",") false = topicForm (strings_Join l2 ",") false ->
   l1 = l2)
  /\ (forall a b, topicForm (strings_Join [a +:+ "," +:+ b] ",") false
                  = topicForm (strings_Join [a; b] ",") false).
Proof.
  intros Hn1 Hn2 Hf1 Hf2. split; [| reflexivity].
  intros Hform.
  assert (Hjoin : strings_Join l1 "," = strings_Join l2 ",").
  { apply (f_equal (fun m => m !! "channels")) in Hform.
    rewrite !topicForm_fields in Hform.
    rewrite !lookup_insert_eq in Hform. congruence. }
  clear Hform. revert l2 Hn2 Hf2 Hjoin.
  induction l1 as [| a l1 IH]; [contradiction |]. intros l2 Hn2 Hf2 Hjoin.
  destruct l2 as [| b l2]; [contradiction |].
  inversion Hf1 as [| ? ? Ha Hf1']; subst. inversion Hf2 as [| ? ? Hb Hf2']; subst.
  unfold commaFree in Ha, Hb.
  destruct l1 as [| a' l1], l2 as [| b' l2]; cbn [strings_Join] in Hjoin.
  - now subst.
  - exfalso. exact (no_separator_inside a b _ "," Ha Hjoin).
  - exfalso. symmetry in Hjoin. exact (no_separator_inside b a _ "," Hb Hjoin).
  - change ("," +:+ strings_Join (a' :: l1) ",")
      with (String "," (strings_Join (a' :: l1) ",")) in Hjoin.
    change ("," +:+ strings_Join (b' :: l2) ",")
      with (String "," (strings_Join (b' :: l2) ",")) in Hjoin.
    destruct (append_separator_inj a b _ _ "," Ha Hb Hjoin) as [-> Hrest].
    f_equal. apply IH; [discriminate | assumption | discriminate | assumption | assumption].
Qed.

End Keys.

(** ** [GenerateKeys] *)

(** With a server id that [strconv.Atoi] rejects, [GenerateKeys] stops
    at once with that error: no key is drawn, nothing is printed and no
    file is written. *)
Lemma GenerateKeys_bad_server_id (h : KeygenHost)
    (outputFile serverID theirPublicStr : string) (err : error) :
  Atoi serverID = inl err ->
  GenerateKeys h outputFile serverID theirPublicStr
  = (Fatal err, {| keysDrawn := 0; stdout := []; writes := [] |}).
Proof. intros H. unfold GenerateKeys. now rewrite H. Qed.

(** X17: whatever its collaborators do, [GenerateKeys] calls
    [WriteFile] at most once, on the file named by the caller, with
    permissions [0600] and with exactly the text it has just printed.
    It returns exactly when every step succeeds: the server id parses,
    the key pair is drawn, the backend key, when one is given, decodes,
    the configuration marshals and the write succeeds; the text written
    is then the marshalled configuration with the parsed id, the key
    pair and the decoded backend key, [nil] when none was given.  A
    backend key that does not decode stops the command before anything
    is printed or written. *)
Theorem GenerateKeys_writes_what_it_prints (h : KeygenHost)
    (outputFile serverID theirPublicStr : string) :
  let run := GenerateKeys h outputFile serverID theirPublicStr in
  (writes (snd run) = []
   \/ exists bytes,
        writes (snd run) = [(outputFile, bytes, 384)]
        /\ stdout (snd run) = [bytes +:+ String (ascii_of_nat 10) ""])
  /\ (fst run = Returned
      <-> exists bytes, keygenSucceeds h outputFile serverID theirPublicStr bytes)
  /\ (forall bytes, keygenSucceeds h outputFile serverID theirPublicStr bytes ->
        snd run = {| keysDrawn := 1;
                     stdout := [bytes +:+ String (ascii_of_nat 10) ""];
                     writes := [(outputFile, bytes, 384)] |})
  /\ (forall id keys e,
        Atoi serverID = inr id -> k_GenerateKey h = inr keys ->
        theirPublicStr <> "" -> k_base64_ReadAll h theirPublicStr = inl e ->
        run = (Fatal (foreignError e),
               {| keysDrawn := 1; stdout := []; writes := [] |})).
Proof.
  cbv zeta.
  assert (Hok : forall bytes,
            keygenSucceeds h outputFile serverID theirPublicStr bytes ->
            GenerateKeys h outputFile serverID theirPublicStr
            = (Returned,
               {| keysDrawn := 1;
                  stdout := [bytes +:+ String (ascii_of_nat 10) ""];
                  writes := [(outputFile, bytes, 384)] |})).
  { intros bytes (id & ourPublic & ourPrivate & key & Ha & Hg & Hk & Hm & Hw).
    unfold GenerateKeys, generatedConfig in *. rewrite Ha, Hg.
    destruct Hk as [[-> ->] | (Hne & theirPublic & Hb & ->)].
    - cbn [String.eqb negb gen_BackendPublicKey gen_ListenAddr gen_SSLListenAddr
           gen_BackendURL gen_MinMemoryKBytes].
      now rewrite Hm, Hw.
    - apply String.eqb_neq in Hne. rewrite Hne, Hb.
      cbn [negb gen_ListenAddr gen_SSLListenAddr gen_BackendURL gen_MinMemoryKBytes].
      now rewrite Hm, Hw. }
  split; [| split; [split |]].
  - unfold GenerateKeys.
    destruct (Atoi serverID) as [e | id]; [now left |].
    destruct (k_GenerateKey h) as [e | [ourPublic ourPrivate]]; [now left |].
    destruct (negb (String.eqb theirPublicStr ""));
      [destruct (k_base64_ReadAll h theirPublicStr); [now left |] |];
      (destruct (k_MarshalIndent h _) as [e | bytes]; [now left |]);
      destruct (k_WriteFile h outputFile bytes 384); right; eauto.
  - unfold GenerateKeys, keygenSucceeds, generatedConfig, backendKeyOf.
    destruct (Atoi serverID) as [e | id]; [discriminate |].
    destruct (k_GenerateKey h) as [e | [ourPublic ourPrivate]]; [discriminate |].
    destruct (String.eqb_spec theirPublicStr "") as [Hempty | Hne];
      cbn [negb gen_BackendPublicKey gen_ListenAddr gen_SSLListenAddr
           gen_BackendURL gen_MinMemoryKBytes].
    + destruct (k_MarshalIndent h _) as [e | bytes] eqn:Hm; [discriminate |].
      destruct (k_WriteFile h outputFile bytes 384) eqn:Hw; [discriminate |].
      intros _. exists bytes, id, ourPublic, ourPrivate, None.
      repeat split; try assumption. now left.
    + destruct (k_base64_ReadAll h theirPublicStr) as [e | theirPublic] eqn:Hb;
        [discriminate |].
      destruct (k_MarshalIndent h _) as [e | bytes] eqn:Hm; [discriminate |].
      destruct (k_WriteFile h outputFile bytes 384) eqn:Hw; [discriminate |].
      intros _. exists bytes, id, ourPublic, ourPrivate, (Some theirPublic).
      repeat split; try assumption. right. split; [assumption |]. eauto.
  - intros (bytes & Hs). now rewrite (Hok bytes Hs).
  - split.
    + intros bytes Hs. now rewrite (Hok bytes Hs).
    + intros id [ourPublic ourPrivate] e Ha Hg Hne Hb.
      unfold GenerateKeys. rewrite Ha, Hg.
      apply String.eqb_neq in Hne. now rewrite Hne, Hb.
Qed.

Example GenerateKeys_on_demoHost :
  GenerateKeys demoHost "config.json" "7" "AQID"
  = (Returned,
     {| keysDrawn := 1;
        stdout := ["{ServerID: 7}" +:+ String (ascii_of_nat 10) ""];
        writes := [("config.json", "{ServerID: 7}", 384)] |})
  /\ fst (GenerateKeys demoHost "config.json" "seven" "AQID")
     = Fatal (syntaxError "Atoi" "seven")
  /\ fst (GenerateKeys demoHost "config.json" "7" "?")
     = Fatal (foreignError {| lib_Error := "illegal base64 data at input byte 0" |}).
Proof. repeat split. Qed.

Section Sentinel.

Variable w : World.

(** X18: [SendRemoteCommand] returns [ErrAuthorizationNeeded] for a 401
    answer only: when it returns the sentinel, the request was sealed
    and sent, the answer had status 401 and its body had been read. *)
Theorem SendRemoteCommand_sentinel_means_401 (s : State)
    (remoteCommand data : string) (auth : AuthInfo) :
  snd (fst (SendRemoteCommand w remoteCommand data auth s))
  = Some ErrAuthorizationNeeded ->
  exists sealedForm resp body,
    answered w s (commandURL s remoteCommand) (commandForm data auth) sealedForm resp
    /\ StatusCode resp = 401
    /\ ioutil_ReadAll (Body resp) = inr body.
Proof.
  unfold SendRemoteCommand, answered, commandURL, commandForm, ErrAuthorizationNeeded.
  call_steps.
  destruct (w_Seal w _ _ _) as [e | sealedForm] eqn:Hseal; call_steps;
    [discriminate |].
  destruct (w_PostForm w _ _ _) as [e | resp] eqn:Hpost; call_steps;
    [discriminate |].
  destruct (body_ReadAll (Body resp)) as [e | body] eqn:Hread; call_steps;
    [discriminate |].
  destruct (StatusCode resp =? 401) eqn:H401; call_steps.
  - intros _. apply Z.eqb_eq in H401. exists sealedForm, resp, body. auto.
  - destruct ((StatusCode resp <? 200) || (299 <? StatusCode resp)); call_steps.
    + destruct (String.eqb _ "application/json"); call_steps; [| discriminate].
      destruct (w_json_Unmarshal w body); call_steps; discriminate.
    + destruct (negb (String.eqb _ "")); call_steps; [| discriminate].
      destruct (ParseInt _) as [e | n]; call_steps; [discriminate |].
      unfold responseCache_Set. call_steps.
      destruct (_ =? DefaultExpiration); destruct (0 <? _); call_steps; discriminate.
Qed.

(** X19: the other operations never return the sentinel: for
    [SendAggregatedData] and for both topic notices a 401 answer is a
    failed answer like any other. *)
Theorem sentinel_is_for_remote_commands (s : State) (form : url_Values)
    (topic : string) (topics : list string) :
  fst (SendAggregatedData w form s) <> Some ErrAuthorizationNeeded
  /\ fst (SendNewTopicNotice w topic s) <> Some ErrAuthorizationNeeded
  /\ fst (SendCleanupTopicsNotice w topics s) <> Some ErrAuthorizationNeeded.
Proof.
  assert (Htopic : forall channels added,
            fst (sendTopicNotice w channels added s) <> Some ErrAuthorizationNeeded).
  { intros channels added. unfold sendTopicNotice, ErrAuthorizationNeeded. call_steps.
    destruct (w_Seal w _ _ _); call_steps; [discriminate |].
    destruct (w_PostForm w _ _ _) as [e | resp]; call_steps; [discriminate |].
    destruct ((StatusCode resp <? 200) || (299 <? StatusCode resp)); call_steps;
      [| discriminate].
    destruct (body_ReadAll (Body resp)); call_steps; discriminate. }
  split; [| split; [apply Htopic | apply Htopic]].
  unfold SendAggregatedData, ErrAuthorizationNeeded. call_steps.
  destruct (w_Seal w _ _ _); call_steps; [discriminate |].
  destruct (w_PostForm w _ _ _) as [e | resp]; call_steps; [discriminate |].
  destruct ((StatusCode resp <? 200) || (299 <? StatusCode resp)); call_steps;
    [discriminate |].
  destruct (body_Close (Body resp)); discriminate.
Qed.

End Sentinel.

(** ** The further theorems on the concrete world *)

Lemma SendRemoteCommand_error_leaves_client_witness :
  fst (fst (SendRemoteCommand (demoWorld resp401) "echo" "x" demoAuth (demoState resp401)))
  = ""
  /\ backend (snd (SendRemoteCommand (demoWorld resp401) "echo" "x" demoAuth
                                     (demoState resp401)))
     = backend (demoState resp401).
Proof.
  apply (SendRemoteCommand_error_leaves_client (demoWorld resp401) (demoState resp401)
           "echo" "x" demoAuth).
  vm_compute. discriminate.
Defined.

Lemma SendRemoteCommand_success_recorded_witness :
  lastSuccess (backend warmState) !! "/cmd/echo" = Some (demoClock 3)
  /\ lastSuccess (backend warmState) !! bPathOtherCommand = Some (demoClock 3).
Proof.
  apply (SendRemoteCommand_success_recorded (demoWorld respHint) (demoState respHint)
           "echo" "x" demoAuth).
  reflexivity.
Defined.

Lemma SendRemoteCommand_2xx_no_hint_witness :
  SendRemoteCommand (demoWorld respPlain) "echo" "x" demoAuth (demoState respPlain)
  = (("hello", None),
     after (sent (demoState respPlain) (commandURL (demoState respPlain) "echo")
                 (commandForm "x" demoAuth) (firstSealed respPlain))
           (with_lastSuccess
              (<["/cmd/echo" := demoClock 2]>
                 (<[bPathOtherCommand := demoClock 2]>
                    (lastSuccess (backend (demoState respPlain)))))
              (backend (demoState respPlain)))).
Proof.
  apply (SendRemoteCommand_2xx_no_hint (demoWorld respPlain) (demoState respPlain)
           "echo" "x" demoAuth (firstSealed respPlain) respPlain "hello").
  - split; reflexivity.
  - reflexivity.
  - unfold is2xx. simpl. lia.
  - reflexivity.
Defined.

Lemma cached_response_round_trip_witness :
  SendRemoteCommandCached (demoWorld respHint) "echo" "x" otherAuth warmState
  = (("hello", None), next warmState).
Proof.
  refine (proj1 (cached_response_round_trip (demoWorld respHint) (demoState respHint)
                   "echo" "x" demoAuth (firstSealed respHint) respHint "hello" 5
                   _ _ _ _ _ _ _ warmState otherAuth _) _).
  - split; reflexivity.
  - reflexivity.
  - unfold is2xx. simpl. lia.
  - reflexivity.
  - lia.
  - vm_compute. discriminate.
  - vm_compute. discriminate.
  - reflexivity.
  - vm_compute. discriminate.
Defined.

Lemma SendAggregatedData_success_recorded_witness :
  lastSuccess (backend (snd (SendAggregatedData (demoWorld respNoContent) statsForm
                                                (demoState respNoContent))))
    !! bPathAggStats
  = Some (demoClock 2).
Proof.
  apply (SendAggregatedData_success_recorded (demoWorld respNoContent)
           (demoState respNoContent) statsForm).
  reflexivity.
Defined.

Lemma calls_keep_the_setup_witness :
  baseURL (backend (performAll (demoWorld respHint) demoCalls (demoState respHint)))
  = "http://localhost:8002/ffz"
  /\ defaultExpiration
       (responseCache (backend (performAll (demoWorld respHint) demoCalls
                                           (demoState respHint))))
     = 60 * Second.
Proof.
  destruct (calls_keep_the_setup (demoWorld respHint) demoConfig demoCalls
              (demoState respHint) eq_refl)
    as (Hurl & _ & _ & _ & _ & _ & Hde & _).
  split; [exact Hurl | exact Hde].
Defined.

Lemma getCacheKey_injective_witness :
  strings_IndexRune "echo" "/" = -1
  /\ getCacheKey "echo" "x/y" = "echo/x/y"
  /\ ("echo" = "echo" /\ "x/y" = "x/y").
Proof.
  split; [reflexivity |]. split; [reflexivity |].
  apply (getCacheKey_injective "echo" "x/y" "echo" "x/y"); reflexivity.
Defined.

Lemma slashState_holds :
  holds (responseCache (backend slashState)) (demoClock (tick slashState))
        (getCacheKey ("a" +:+ "/" +:+ "b") "c") "hello".
Proof.
  exists {| Object := "hello"; Expiration := demoClock 2 + 5 * Second |}.
  split; [reflexivity |]. split; [reflexivity |].
  right. vm_compute. discriminate.
Qed.

Lemma getCacheKey_collision_witness :
  getCacheKey "a" ("b" +:+ "/" +:+ "c") = getCacheKey ("a" +:+ "/" +:+ "b") "c"
  /\ fst (SendRemoteCommandCached (demoWorld respHint) "a" ("b" +:+ "/" +:+ "c")
                                  otherAuth slashState)
     = ("hello", None).
Proof.
  exact (getCacheKey_collision (demoWorld respHint) slashState "a" "b" "c" "hello"
           otherAuth slashState_holds).
Defined.

Lemma SendRemoteCommand_json_error_any_parameters_witness :
  SendRemoteCommand (demoWorld respJSON) "echo" "x" demoAuth (demoState respJSON)
  = (("", Some (ErrForwardedFromBackend JNull)),
     sent (demoState respJSON) (commandURL (demoState respJSON) "echo")
          (commandForm "x" demoAuth) (firstSealed respJSON)).
Proof.
  apply (SendRemoteCommand_json_error_any_parameters (demoWorld respJSON)
           (demoState respJSON) "echo" "x" demoAuth (firstSealed respJSON) respJSON
           "null" " charset=utf-8" JNull).
  - split; reflexivity.
  - reflexivity.
  - unfold is2xx. simpl. lia.
  - simpl. lia.
  - reflexivity.
  - reflexivity.
Defined.

Lemma fresh_client_witness :
  SendRemoteCommandCached (demoWorld respHint) "echo" "x" demoAuth (demoState respHint)
  = SendRemoteCommand (demoWorld respHint) "echo" "x" demoAuth (demoState respHint).
Proof.
  apply (fresh_client (demoWorld respHint) demoConfig (demoState respHint)
           "echo" "x" demoAuth).
  reflexivity.
Defined.

Lemma cleanup_form_tells_topics_witness :
  Forall commaFree ["room.a"; "room.b"]
  /\ strings_Join ["room.a"; "room.b"] "," = "room.a,room.b"
  /\ ["room.a"; "room.b"] = ["room.a"; "room.b"].
Proof.
  split; [repeat constructor |]. split; [reflexivity |].
  refine (proj1 (cleanup_form_tells_topics ["room.a"; "room.b"] ["room.a"; "room.b"]
                   _ _ _ _) _).
  - discriminate.
  - discriminate.
  - repeat constructor.
  - repeat constructor.
  - reflexivity.
Defined.

Lemma SendRemoteCommand_sentinel_means_401_witness :
  exists sealedForm resp body,
    answered (demoWorld resp401) (demoState resp401)
             (commandURL (demoState resp401) "echo") (commandForm "x" demoAuth)
             sealedForm resp
    /\ StatusCode resp = 401
    /\ ioutil_ReadAll (Body resp) = inr body.
Proof.
  apply (SendRemoteCommand_sentinel_means_401 (demoWorld resp401) (demoState resp401)
           "echo" "x" demoAuth).
  reflexivity.
Defined.

(** ** The bounds on the hint *)

(** The seconds of a negative hint fit the [int64] range of nanoseconds
    exactly from [-9223372036] on. *)
Lemma negative_seconds_fit (n : Z) :
  MinInt64 <= n * Second <-> -9223372036 <= n.
Proof. unfold MinInt64, Second. lia. Qed.

(** Below that bound the duration wraps around: the hint
    [-18446744073] becomes a duration of 709551616 nanoseconds, and the
    body is stored with an expiry that far after the store. *)
Example negative_hint_can_wrap :
  ParseInt (Header_Get (Header respWrapHint) "FFZ-Cache") = inr (-18446744073)
  /\ wrap64 (-18446744073 * Second) = 709551616
  /\ fst wrapHintRun = ("hello", None)
  /\ cachedWithExpiry (backend (snd wrapHintRun)) (getCacheKey "echo" "x") "hello"
                      (demoClock 2 + 709551616).
Proof. repeat split. Qed.
